(** * merge_pull: a shallow embedding of [src/merge_pull.py]

    The script is a linear sequence of [git] invocations with two
    interactive prompts.  It is embedded as a computation in a small
    state-and-exit monad:

    - the outside world is an oracle giving, for the n-th spawned command
      and its command line, the bytes the process writes and its return
      code, together with the lines that will be typed on standard input;
    - the observable behaviour is the chronological trace of events
      ([print], [Popen], [input]) and the way the run ends: normally, by
      [sys.exit(code)], or by an exception nobody catches.

    Text is kept as the sequence of bytes of its UTF-8 encoding, in a
    Rocq [string]; [bytes.decode('utf-8')] is then the identity on
    well-formed input and raises [UnicodeDecodeError] elsewhere. *)

From Stdlib Require Import String Ascii List ZArith NArith Bool Lia DecimalString.
Import ListNotations.
Open Scope string_scope.

(** ** Text and byte helpers *)

Module Py.

(** [sep.join(items)] *)
Definition join (sep : string) (items : list string) : string :=
  String.concat sep items.

(** [s.startswith(p)] *)
Definition startswith (p s : string) : bool := String.prefix p s.

(** [s[1:]] *)
Definition drop1 (s : string) : string :=
  match s with
  | EmptyString => EmptyString
  | String _ r => r
  end.

(** [not s] for a string: only the empty string is falsy. *)
Definition falsy (s : string) : bool :=
  match s with
  | EmptyString => true
  | String _ _ => false
  end.

Definition byte_in (lo hi : N) (c : ascii) : bool :=
  ((lo <=? N_of_ascii c) && (N_of_ascii c <=? hi))%N.

(** [str.lower] on one character.  Only the ASCII letters are mapped; a
    byte of a multi-byte character is left alone.  (Unicode lower-casing
    also moves characters outside ASCII, but U+0059 is the only character
    other than U+0079 itself that it sends to U+0079, which is all the
    script asks of it.) *)
Definition lower_ascii (c : ascii) : ascii :=
  if byte_in 65 90 c then ascii_of_N (N_of_ascii c + 32) else c.

Fixpoint lower (s : string) : string :=
  match s with
  | EmptyString => EmptyString
  | String c r => String (lower_ascii c) (lower r)
  end.

(** The bytes [bytes.rstrip()] removes: space, tab, newline, carriage
    return, vertical tab, form feed. *)
Definition is_space (c : ascii) : bool :=
  byte_in 9 13 c || byte_in 32 32 c.

(** [b.rstrip()] *)
Fixpoint rstrip (s : string) : string :=
  match s with
  | EmptyString => EmptyString
  | String c r =>
      let r' := rstrip r in
      if is_space c && falsy r' then EmptyString else String c r'
  end.

(** Continuation byte of a UTF-8 sequence. *)
Definition cont (c : ascii) : bool := byte_in 128 191 c.

(** Second byte of a three- or four-byte sequence: the ranges that rule
    out overlong forms, surrogates and code points above U+10FFFF. *)
Definition second_ok (b0 b1 : ascii) : bool :=
  if byte_in 224 224 b0 then byte_in 160 191 b1
  else if byte_in 237 237 b0 then byte_in 128 159 b1
  else if byte_in 240 240 b0 then byte_in 144 191 b1
  else if byte_in 244 244 b0 then byte_in 128 143 b1
  else cont b1.

(** Well-formed UTF-8, as the strict decoder accepts it. *)
Fixpoint utf8_valid (s : string) : bool :=
  match s with
  | EmptyString => true
  | String b0 s1 =>
      if byte_in 0 127 b0 then utf8_valid s1
      else if byte_in 194 223 b0 then
        match s1 with
        | String b1 s2 => cont b1 && utf8_valid s2
        | _ => false
        end
      else if byte_in 224 239 b0 then
        match s1 with
        | String b1 (String b2 s3) =>
            second_ok b0 b1 && cont b2 && utf8_valid s3
        | _ => false
        end
      else if byte_in 240 244 b0 then
        match s1 with
        | String b1 (String b2 (String b3 s4)) =>
            second_ok b0 b1 && cont b2 && cont b3 && utf8_valid s4
        | _ => false
        end
      else false
  end.

(** ['{0}'.format(n)] for an integer. *)
Definition str_of_int (n : Z) : string :=
  NilZero.string_of_int (Z.to_int n).

Definition newline : ascii := ascii_of_N 10.

(** [stream.readline()]: the bytes up to and including the next newline,
    or all that is left; the second component is the rest of the stream.
    The empty result means end of file. *)
Fixpoint readline (s : string) : string * string :=
  match s with
  | EmptyString => (EmptyString, EmptyString)
  | String c r =>
      if Ascii.eqb c newline then (String c EmptyString, r)
      else let (l, r') := readline r in (String c l, r')
  end.

(** The successive results of [readline] until the first empty one.  Each
    call consumes at least one byte, so [fuel] of the stream's length is
    enough (see [readlines_concat]). *)
Fixpoint readlines_fuel (fuel : nat) (s : string) : list string :=
  match fuel with
  | O => []
  | S fuel' =>
      let (line, rest) := readline s in
      if falsy line then [] else line :: readlines_fuel fuel' rest
  end.

Definition readlines (s : string) : list string :=
  readlines_fuel (String.length s) s.

End Py.

(** ** The world, the trace and the monad *)

(** What a finished subprocess looks like to [git]: everything it wrote
    ([stderr=STDOUT] merges the two streams) and [proc.wait()]. *)
Record process := mkProcess {
  stdout : string;
  returncode : Z
}.

Inductive event :=
| Print (text : string)          (* print(text) *)
| Popen (cmdline : list string)  (* Popen(cmdline, ...) *)
| Input (prompt : string).       (* input(prompt) *)

(** Exceptions the script can raise and never catches at top level. *)
Inductive exn := IndexError | StopIteration | EOFError | UnicodeDecodeError.

Inductive outcome (A : Type) :=
| Ret (a : A)
| Exit (code : Z)    (* sys.exit(code) *)
| Raise (e : exn).
Arguments Ret {A} a.
Arguments Exit {A} code.
Arguments Raise {A} e.

(** [git_proc n cmdline] is the process the n-th [Popen] gets.  [stdin]
    lists what [input] will read: [Some line], or [None] for an
    end-of-file condition (Ctrl-D); once the list is used up, standard
    input is at end of file for good. *)
Record state := mkState {
  git_proc : nat -> list string -> process;
  stdin : list (option string);
  spawned : nat;
  trace : list event
}.

Definition M (A : Type) : Type := state -> state * outcome A.

Definition ret {A} (a : A) : M A := fun st => (st, Ret a).

Definition bind {A B} (m : M A) (k : A -> M B) : M B :=
  fun st =>
    match m st with
    | (st', Ret a) => k a st'
    | (st', Exit c) => (st', Exit c)
    | (st', Raise e) => (st', Raise e)
    end.

Notation "x <- m ;; k" := (bind m (fun x => k))
  (at level 61, m at next level, right associativity).
Notation "m ;; k" := (bind m (fun _ => k))
  (at level 61, right associativity).

Definition log (e : event) (st : state) : state :=
  mkState (git_proc st) (stdin st) (spawned st) (trace st ++ [e])%list.

Definition print (text : string) : M unit :=
  fun st => (log (Print text) st, Ret tt).

Definition sys_exit {A} (code : Z) : M A := fun st => (st, Exit code).

Definition raise {A} (e : exn) : M A := fun st => (st, Raise e).

Definition popen (cmdline : list string) : M process :=
  fun st =>
    (mkState (git_proc st) (stdin st) (S (spawned st))
             (trace st ++ [Popen cmdline])%list,
     Ret (git_proc st (spawned st) cmdline)).

(** [input(prompt)]: shows the prompt and reads one line; raises
    [EOFError] at end of file. *)
Definition input (prompt : string) : M string :=
  fun st =>
    let tr := (trace st ++ [Input prompt])%list in
    match stdin st with
    | Some line :: rest =>
        (mkState (git_proc st) rest (spawned st) tr, Ret line)
    | None :: rest =>
        (mkState (git_proc st) rest (spawned st) tr, Raise EOFError)
    | [] =>
        (mkState (git_proc st) [] (spawned st) tr, Raise EOFError)
    end.

(** [raw.decode('utf-8')] *)
Definition decode (raw : string) : M string :=
  if Py.utf8_valid raw then ret raw else raise UnicodeDecodeError.

(** [xs[0]] *)
Definition item0 (xs : list string) : M string :=
  match xs with
  | x :: _ => ret x
  | [] => raise IndexError
  end.

(** How the interpreter turns the end of a run into a process exit
    status: 0 when the script runs off its end, the argument of
    [sys.exit], and 1 after the traceback of an uncaught exception. *)
Definition exit_code {A} (o : outcome A) : Z :=
  match o with
  | Ret _ => 0
  | Exit c => c
  | Raise _ => 1
  end.

(** ** The command runner, lines 46-72 *)

(** The [while True] loop of [git] over the lines [readline] yields. *)
Fixpoint drain (lines : list string) (output : list string)
  : M (list string) :=
  match lines with
  | [] => ret output
  | line :: rest =>
      line <- decode (Py.rstrip line) ;;
      print ("git> " ++ line) ;;
      drain rest (output ++ [line])%list
  end.

Definition git (arguments : list string) : M (list string) :=
  let cmdline := "git" :: arguments in
  print "" ;;
  print (Py.join " " cmdline) ;;
  proc <- popen cmdline ;;
  print "" ;;
  output <- drain (Py.readlines (stdout proc)) [] ;;
  print "" ;;
  let return_code := returncode proc in
  if negb (return_code =? 0)%Z then
    print "" ;;
    print ("Git command terminated with exit code "
             ++ Py.str_of_int return_code ++ ".") ;;
    sys_exit 1
  else ret output.

(** ** The orchestrator, lines 27-43 and 75-155 *)

(** The namespace [parse_args] returns. *)
Record Args := mkArgs {
  target_branch : string;
  remote : string;
  message : option string;   (* [None] when [-m] is absent *)
  assume_yes : bool
}.

(** [assume_yes or 'y' == input(prompt).lower()], lines 120 and 148. *)
Definition confirm (assume_yes : bool) (prompt : string) : M bool :=
  if assume_yes then ret true
  else
    answer <- input prompt ;;
    ret ("y" =? Py.lower answer).

(** [try: input(prompt) except EOFError: <None>], lines 127-130. *)
Definition input_or_eof (prompt : string) : M (option string) :=
  fun st =>
    match input prompt st with
    | (st', Ret line) => (st', Ret (Some line))
    | (st', Raise EOFError) => (st', Ret None)
    | (st', Raise e) => (st', Raise e)
    | (st', Exit c) => (st', Exit c)
    end.

(** The [while True] loop of lines 126-131.  Every turn takes one entry
    of standard input, so one more than their number is fuel enough (see
    [read_contents_run]). *)
Fixpoint read_contents_fuel (fuel : nat) (contents : list string)
  : M (list string) :=
  match fuel with
  | O => ret contents
  | S fuel' =>
      r <- input_or_eof "" ;;
      match r with
      | None => ret contents
      | Some msg_line => read_contents_fuel fuel' (contents ++ [msg_line])%list
      end
  end.

Definition read_contents : M (list string) :=
  fun st => read_contents_fuel (S (length (stdin st))) [] st.

(** [not message]: the option was not given, or given empty. *)
Definition not_message (message : option string) : bool :=
  match message with
  | None => true
  | Some m => Py.falsy m
  end.

(** Lines 113-132: show the first commit's message and ask whether to
    reuse it; otherwise read a new one up to end of file. *)
Definition ask_message (assume_yes : bool) (msg_of_first_commit : string)
  : M string :=
  print "Message of the first commit on this branch:" ;;
  print "----" ;;
  print "" ;;
  print msg_of_first_commit ;;
  print "" ;;
  print "----" ;;
  reuse <- confirm assume_yes "Re-use the this message (y/N): " ;;
  if reuse : bool then
    print "Re-using commit messsage..." ;;
    ret msg_of_first_commit
  else
    print "Enter/paste your message. Hit Ctrl-D to save it." ;;
    contents <- read_contents ;;
    ret (Py.join (String Py.newline "") contents).

(** Lines 112-132: the message the squashed commit gets. *)
Definition squash_message (args : Args) (msg_of_first_commit : string)
  : M string :=
  match message args with
  | Some m =>
      if Py.falsy m then ask_message (assume_yes args) msg_of_first_commit
      else ret m
  | None => ask_message (assume_yes args) msg_of_first_commit
  end.

(** Line 95: [next(c for c in commits if c.startswith('<'))[1:]]. *)
Definition first_left (commits : list string) : M string :=
  match find (Py.startswith "<") commits with
  | Some commit => ret (Py.drop1 commit)
  | None => raise StopIteration
  end.

Definition target_branch_remote (args : Args) : string :=
  remote args ++ "/" ++ target_branch args.

(** Lines 76-78: the current branch's name, and the commits the target
    branch and the current branch resolve to. *)
Definition resolve (args : Args) : M (string * string * string) :=
  out <- git ["rev-parse"; "--abbrev-ref"; "--verify"; "HEAD"] ;;
  feature_branch <- item0 out ;;
  out <- git ["rev-parse"; target_branch args] ;;
  target_branch_ref <- item0 out ;;
  out <- git ["rev-parse"; feature_branch] ;;
  feature_branch_ref <- item0 out ;;
  ret (feature_branch, target_branch_ref, feature_branch_ref).

(** Lines 80-84. *)
Definition guard (args : Args)
    (feature_branch target_branch_ref feature_branch_ref : string) : M unit :=
  print ("Merging pull request for branch " ++ feature_branch
           ++ " with target branch " ++ target_branch args ++ "...") ;;
  if target_branch_ref =? feature_branch_ref then
    print "Target branch and HEAD point to the same ref. Make sure you are on your feature branch." ;;
    sys_exit 1
  else ret tt.

(** Lines 86-96: fetch, list the commits on either side, pick the first
    one of ours, resolve HEAD. *)
Definition divergence (args : Args) : M (string * string) :=
  print "Fetching upstream changes..." ;;
  git ["fetch"; remote args] ;;
  commits <- git ["rev-list"; "--left-right"; "--reverse";
                  "HEAD..." ++ target_branch_remote args] ;;
  first_commit_on_branch <- first_left commits ;;
  out <- git ["rev-parse"; "HEAD"] ;;
  head_sha1 <- item0 out ;;
  ret (first_commit_on_branch, head_sha1).

(** Lines 101-102. *)
Definition rebase (args : Args) : M unit :=
  print "Rebasing commit(s)..." ;;
  git ["rebase"; target_branch_remote args] ;;
  ret tt.

(** Lines 104-134. *)
Definition squash (args : Args) (first_commit_on_branch : string) : M unit :=
  out <- git ["show"; "--no-patch"; "--format=%B"; first_commit_on_branch] ;;
  let msg_of_first_commit := Py.join (String Py.newline "") out in
  print "Merging in upstream changes..." ;;
  git ["merge"; target_branch_remote args] ;;
  print "Squashing commits..." ;;
  git ["reset"; "--soft"; target_branch_remote args] ;;
  message <- squash_message args msg_of_first_commit ;;
  git ["commit"; "-m"; message] ;;
  ret tt.

(** Lines 136-155. *)
Definition publish (args : Args) (feature_branch : string) : M unit :=
  print "Force-pushing commit to feature branch..." ;;
  git ["push"; "--force"; remote args; "HEAD:" ++ feature_branch] ;;
  print "Pushing commit to target branch..." ;;
  git ["push"; remote args; "HEAD:" ++ target_branch args] ;;
  print "Switching to target branch..." ;;
  git ["checkout"; target_branch args] ;;
  print "Pulling in upstream changes..." ;;
  git ["pull"; remote args; target_branch args; "--rebase"] ;;
  delete <- confirm (assume_yes args) "Delete feature branches (y/N): " ;;
  (if delete : bool then
     print "Deleting feature branch..." ;;
     git ["branch"; "-d"; feature_branch] ;;
     print "Deleting feature branch on server..." ;;
     git ["push"; remote args; feature_branch; "--delete"] ;;
     ret tt
   else ret tt) ;;
  print "Good bye.".

(** Lines 75-96: everything before the choice between rebasing and
    squashing. *)
Definition prepare (args : Args) : M (string * string * string) :=
  refs <- resolve args ;;
  let '(feature_branch, target_branch_ref, feature_branch_ref) := refs in
  guard args feature_branch target_branch_ref feature_branch_ref ;;
  found <- divergence args ;;
  let '(first_commit_on_branch, head_sha1) := found in
  ret (feature_branch, first_commit_on_branch, head_sha1).

(** Lines 75-134: everything before the pushes; the name of the feature
    branch is what the rest of the script needs from it. *)
Definition integrate (args : Args) : M string :=
  found <- prepare args ;;
  let '(feature_branch, first_commit_on_branch, head_sha1) := found in
  (if first_commit_on_branch =? head_sha1 then rebase args
   else squash args first_commit_on_branch) ;;
  ret feature_branch.

(** The script body after argument parsing, lines 75-155. *)
Definition main (args : Args) : M unit :=
  feature_branch <- integrate args ;;
  publish args feature_branch.

(** A run starts with nothing spawned and nothing printed. *)
Record world := mkWorld {
  processes : nat -> list string -> process;
  typed : list (option string)
}.

Definition start (w : world) : state := mkState (processes w) (typed w) 0 [].

Definition run (args : Args) (w : world) : state * outcome unit :=
  main args (start w).

(** ** The argument parser, lines 27-38 *)

(** [parse_args] either returns the namespace or ends the process itself:
    with status 0 after [-h], with status 2 after a usage error. *)
Inductive parsed :=
| Parsed (args : Args)
| ParserExit (status : Z).

Inductive option_name := OptHelp | OptTarget | OptRemote | OptMessage | OptYes.

Inductive token :=
| Opt (o : option_name)   (* one of the parser's option strings, exactly *)
| Word                    (* not an option: empty, or no leading dash *)
| Other.                  (* anything else that starts with a dash *)

Definition classify (arg : string) : token :=
  if arg =? "-h" then Opt OptHelp else if arg =? "--help" then Opt OptHelp
  else if arg =? "-t" then Opt OptTarget
  else if arg =? "--target-branch" then Opt OptTarget
  else if arg =? "-r" then Opt OptRemote
  else if arg =? "--remote" then Opt OptRemote
  else if arg =? "-m" then Opt OptMessage
  else if arg =? "--message" then Opt OptMessage
  else if arg =? "-y" then Opt OptYes
  else if arg =? "--assume-yes" then Opt OptYes
  else if Py.startswith "-" arg then Other
  else Word.

Definition store (o : option_name) (value : string) (ns : Args) : Args :=
  match o with
  | OptTarget => mkArgs value (remote ns) (message ns) (assume_yes ns)
  | OptRemote => mkArgs (target_branch ns) value (message ns) (assume_yes ns)
  | OptMessage => mkArgs (target_branch ns) (remote ns) (Some value) (assume_yes ns)
  | OptYes => mkArgs (target_branch ns) (remote ns) (message ns) true
  | OptHelp => ns
  end.

(** The parser on command lines made of its exact option strings and of
    words without a leading dash: options are handled left to right, a
    value-taking option needs a following word, and words no option takes
    are reported at the end.  The library's other spellings (unambiguous
    prefixes, [--opt=value], [-tvalue], clustered flags, [--]) all start
    with a dash and are not one of the option strings: on those the
    result is [None] and nothing below speaks about them. *)
Fixpoint parse_from (ns : Args) (extras : bool) (argv : list string)
  : option parsed :=
  match argv with
  | [] => Some (if extras then ParserExit 2 else Parsed ns)
  | arg :: rest =>
      match classify arg with
      | Word => parse_from ns true rest
      | Other => None
      | Opt OptHelp => Some (ParserExit 0)
      | Opt OptYes => parse_from (store OptYes "" ns) extras rest
      | Opt o =>
          match rest with
          | [] => Some (ParserExit 2)
          | value :: rest' =>
              match classify value with
              | Word => parse_from (store o value ns) extras rest'
              | Opt _ => Some (ParserExit 2)
              | Other => None
              end
          end
      end
  end.

(** The defaults of lines 31-36. *)
Definition defaults : Args := mkArgs "master" "origin" None false.

Definition parse_args (argv : list string) : option parsed :=
  parse_from defaults false argv.


(** ** Observations on a trace *)

Fixpoint commands (tr : list event) : list (list string) :=
  match tr with
  | [] => []
  | Popen cmdline :: tr' => cmdline :: commands tr'
  | _ :: tr' => commands tr'
  end.

Fixpoint prompts (tr : list event) : list string :=
  match tr with
  | [] => []
  | Input prompt :: tr' => prompt :: prompts tr'
  | _ :: tr' => prompts tr'
  end.

(** The git subcommand of a command line: its word after [git]. *)
Definition subcommand (cmdline : list string) : string := nth 1 cmdline "".

(** ** What the runner does, as functions of the spawned process *)

Definition decodable (raw : string) : bool := Py.utf8_valid (Py.rstrip raw).

Definition clean (lines : list string) : bool := forallb decodable lines.

Definition captured (lines : list string) : list string := map Py.rstrip lines.

(** The lines [git] returns for a process whose output decodes. *)
Definition output_lines (p : process) : list string :=
  captured (Py.readlines (stdout p)).

Fixpoint shown (lines : list string) : list event :=
  match lines with
  | [] => []
  | line :: rest =>
      if decodable line then Print ("git> " ++ Py.rstrip line) :: shown rest
      else []
  end.

Definition diagnostic (return_code : Z) : string :=
  "Git command terminated with exit code " ++ Py.str_of_int return_code ++ ".".

Definition git_result (p : process) : outcome (list string) :=
  if clean (Py.readlines (stdout p)) then
    if (returncode p =? 0)%Z then Ret (output_lines p)
    else Exit 1
  else Raise UnicodeDecodeError.

Definition git_events (cmdline : list string) (p : process) : list event :=
  ([Print ""; Print (Py.join " " cmdline); Popen cmdline; Print ""]
   ++ shown (Py.readlines (stdout p))
   ++ (if clean (Py.readlines (stdout p)) then
         Print "" ::
         (if (returncode p =? 0)%Z then []
          else [Print ""; Print (diagnostic (returncode p))])
       else []))%list.

Definition extend (st : state) (evs : list event) : state :=
  mkState (git_proc st) (stdin st) (spawned st) (trace st ++ evs)%list.

Definition spawn_next (st : state) (cmdline : list string) : process :=
  git_proc st (spawned st) cmdline.

Definition after_git (st : state) (cmdline : list string) : state :=
  mkState (git_proc st) (stdin st) (S (spawned st))
          (trace st ++ git_events cmdline (spawn_next st cmdline))%list.

(** A raw line as [readline] hands it out: not empty, and with no newline
    before its last byte. *)
Fixpoint line_shaped (l : string) : bool :=
  match l with
  | EmptyString => false
  | String c EmptyString => true
  | String c r => negb (Ascii.eqb c Py.newline) && line_shaped r
  end.

Fixpoint all_space (s : string) : bool :=
  match s with
  | EmptyString => true
  | String c r => Py.is_space c && all_space r
  end.

(** The last byte of a string is not white space (true of the empty
    string). *)
Fixpoint ends_in_text (s : string) : bool :=
  match s with
  | EmptyString => true
  | String c EmptyString => negb (Py.is_space c)
  | String _ r => ends_in_text r
  end.

(** ** What the prompts read *)

(** Lines typed before the first end-of-file, and what is left after it. *)
Fixpoint entered (pending : list (option string)) : list string :=
  match pending with
  | Some line :: rest => line :: entered rest
  | _ => []
  end.

Fixpoint after_eof (pending : list (option string)) : list (option string) :=
  match pending with
  | Some _ :: rest => after_eof rest
  | None :: rest => rest
  | [] => []
  end.

(** ** The command lines of the script *)

Definition resolve_commands (args : Args) (feature_branch : string)
  : list (list string) :=
  [ ["git"; "rev-parse"; "--abbrev-ref"; "--verify"; "HEAD"];
    ["git"; "rev-parse"; target_branch args];
    ["git"; "rev-parse"; feature_branch] ].

Definition prepare_commands (args : Args) (feature_branch : string)
  : list (list string) :=
  (resolve_commands args feature_branch
   ++ [ ["git"; "fetch"; remote args];
        ["git"; "rev-list"; "--left-right"; "--reverse";
         ("HEAD..." ++ target_branch_remote args)%string];
        ["git"; "rev-parse"; "HEAD"] ])%list.

Definition show_command (first_commit_on_branch : string) : list string :=
  ["git"; "show"; "--no-patch"; "--format=%B"; first_commit_on_branch].

Definition rebase_command (args : Args) : list string :=
  ["git"; "rebase"; target_branch_remote args].

Definition publish_commands (args : Args) (feature_branch : string)
  : list (list string) :=
  [ ["git"; "push"; "--force"; remote args; "HEAD:" ++ feature_branch];
    ["git"; "push"; remote args; "HEAD:" ++ target_branch args];
    ["git"; "checkout"; target_branch args];
    ["git"; "pull"; remote args; target_branch args; "--rebase"];
    ["git"; "branch"; "-d"; feature_branch];
    ["git"; "push"; remote args; feature_branch; "--delete"] ].

Definition reuse_prompt : string := "Re-use the this message (y/N): ".
Definition delete_prompt : string := "Delete feature branches (y/N): ".
Definition guard_message : string :=
  "Target branch and HEAD point to the same ref. Make sure you are on your feature branch.".

(** Commands of the push phase and after. *)
Definition publishing (cmdline : list string) : bool :=
  (subcommand cmdline =? "push") || (subcommand cmdline =? "checkout")
  || (subcommand cmdline =? "pull") || (subcommand cmdline =? "branch").

(** Commands of the squash path. *)
Definition squashing (cmdline : list string) : bool :=
  (subcommand cmdline =? "show") || (subcommand cmdline =? "merge")
  || (subcommand cmdline =? "reset") || (subcommand cmdline =? "commit").

(** ** Statements about the n-th command of a run *)

(** [each_from P n xs]: [P] holds of every element of [xs] with its
    position, counted from [n]. *)
Fixpoint each_from {X} (P : nat -> X -> Prop) (n : nat) (xs : list X) : Prop :=
  match xs with
  | [] => True
  | x :: rest => P n x /\ each_from P (S n) rest
  end.

(** The command at position [n] returned normally, with a first line when
    it is a [rev-parse] and a commit of ours when it is the [rev-list]. *)
Definition benign (gp : nat -> list string -> process)
    (n : nat) (cmd : list string) : Prop :=
  exists out, git_result (gp n cmd) = Ret out
    /\ (subcommand cmd = "rev-parse" -> out <> [])
    /\ (subcommand cmd = "rev-list" -> find (Py.startswith "<") out <> None).

(** What a run ending with [o] after the commands [cs] owes to the command
    at position [n]: had it failed, or returned what the script cannot
    use, the run would have ended there and in that way. *)
Definition fatal (gp : nat -> list string -> process)
    (cs : list (list string)) (o : outcome unit)
    (n : nat) (cmd : list string) : Prop :=
  let p := gp n cmd in
  (returncode p <> 0%Z -> exit_code o = 1%Z /\ length cs = S n)
  /\ (subcommand cmd = "rev-parse" -> returncode p = 0%Z ->
      Py.readlines (stdout p) = [] ->
      o = Raise IndexError /\ length cs = S n)
  /\ (subcommand cmd = "rev-list" -> forall commits,
      git_result p = Ret commits ->
      find (Py.startswith "<") commits = None ->
      o = Raise StopIteration /\ length cs = S n).

(** ** Running a computation symbolically

    [wp m st cs ps Q] says: if [cs] are the commands and [ps] the prompts
    in the trace of [st], then running [m] from [st] ends in a state, with
    its commands and prompts, and an outcome that satisfy [Q]. *)

Definition post (A : Type) : Type :=
  state -> list (list string) -> list string -> outcome A -> Prop.

Definition wp {A} (m : M A) (st : state) (cs : list (list string))
    (ps : list string) (Q : post A) : Prop :=
  commands (trace st) = cs -> prompts (trace st) = ps ->
  Q (fst (m st)) (commands (trace (fst (m st))))
    (prompts (trace (fst (m st)))) (snd (m st)).

(** ** Worlds to run the script in *)

Definition nl : string := String Py.newline "".

Definition succeeds (output : string) : process := mkProcess output 0.

(** The n-th command gets the n-th process of the list, whatever its
    command line; commands past the list succeed without output. *)
Definition scripted (ps : list process) : nat -> list string -> process :=
  fun n _ => nth n ps (succeeds "").

(** A feature branch two commits ahead of [origin/master]. *)
Definition two_ahead : list process :=
  [ succeeds ("feature/x" ++ nl);
    succeeds ("1111111" ++ nl);
    succeeds ("3333333" ++ nl);
    succeeds "";
    succeeds ("<2222222" ++ nl ++ "<3333333" ++ nl);
    succeeds ("3333333" ++ nl);
    succeeds ("Add x" ++ nl ++ nl ++ "First draft.  " ++ nl) ].

(** A feature branch one commit ahead of [origin/master]. *)
Definition one_ahead : list process :=
  [ succeeds ("feature/x" ++ nl);
    succeeds ("1111111" ++ nl);
    succeeds ("2222222" ++ nl);
    succeeds "";
    succeeds (">1111112" ++ nl ++ "<2222222" ++ nl);
    succeeds ("2222222" ++ nl) ].

(** The target branch checked out: both names resolve to one commit. *)
Definition on_target : list process :=
  [ succeeds ("master" ++ nl);
    succeeds ("1111111" ++ nl);
    succeeds ("1111111" ++ nl) ].

(** The fetch fails. *)
Definition fetch_fails : list process :=
  [ succeeds ("feature/x" ++ nl);
    succeeds ("1111111" ++ nl);
    succeeds ("2222222" ++ nl);
    mkProcess ("fatal: unable to access the remote" ++ nl) 128 ].

(** A byte that is not UTF-8 in the output of a failing command. *)
Definition undecodable : list process :=
  [ mkProcess (String (ascii_of_N 255) nl) 128 ].

(** Nothing of ours in the revision list. *)
Definition nothing_ahead : list process :=
  [ succeeds ("feature/x" ++ nl);
    succeeds ("1111111" ++ nl);
    succeeds ("2222222" ++ nl);
    succeeds "";
    succeeds (">1111112" ++ nl) ].

Definition world_of (ps : list process) (typed : list (option string))
  : world := mkWorld (scripted ps) typed.

Definition yes_with_message : Args :=
  mkArgs "master" "origin" (Some "Add x") true.

Definition yes_with_empty_message : Args :=
  mkArgs "master" "origin" (Some "") true.

Definition interactive : Args := mkArgs "master" "origin" None false.

(** ** The phases of a run *)

(** The commands of the push phase: some first part of
    [publish_commands], never an empty one; the deletions are among them
    only after a yes. *)
Definition published (args : Args) (feature_branch : string)
    (inp : list (option string)) (cs0 : list (list string))
    (ps0 : list string) (cs : list (list string)) (ps : list string)
    (o : outcome unit) : Prop :=
  exists k,
    1 <= k <= 6
    /\ cs = (cs0 ++ firstn k (publish_commands args feature_branch))%list
    /\ (ps = ps0 \/ ps = (ps0 ++ [delete_prompt])%list)
    /\ (4 < k ->
        assume_yes args = true
        \/ exists answer rest,
             inp = Some answer :: rest /\ (answer = "y" \/ answer = "Y"))
    /\ (o = Ret tt -> k = 4 \/ k = 6).

(** The message of the first commit of the branch, as line 104 builds it
    from what the [show] command, the seventh of the run, wrote. *)
Definition msg_of_first_commit (w : world) (first_commit_on_branch : string)
  : string :=
  Py.join nl (output_lines (processes w 6 (show_command first_commit_on_branch))).

(** Lines 112-132, as a relation between the arguments, the lines typed
    and the message [m] that is committed. *)
Definition message_chosen (args : Args) (pending : list (option string))
    (first_message m : string) : Prop :=
  (forall supplied,
     message args = Some supplied -> supplied <> "" -> m = supplied)
  /\ (not_message (message args) = true -> assume_yes args = true ->
      m = first_message)
  /\ (not_message (message args) = true -> assume_yes args = false ->
      exists answer rest,
        pending = Some answer :: rest
        /\ (answer = "y" \/ answer = "Y" -> m = first_message)
        /\ (~ (answer = "y" \/ answer = "Y") ->
            m = Py.join nl (entered rest))).

Definition commit_command (m : string) : list string :=
  ["git"; "commit"; "-m"; m].

(** The advice of line 80. *)
Definition advice (args : Args) (feature_branch : string) : string :=
  "Merging pull request for branch " ++ feature_branch
    ++ " with target branch " ++ target_branch args ++ "...".

(** What the answer to the prompt of line 148 decides: under
    [--assume-yes], and after [y] or [Y], the deletions are run; after
    any other answer the script goes straight to its end. *)
Definition deletion_decided (args : Args) (feature_branch : string)
    (inp : list (option string)) (cs0 : list (list string))
    (ps0 : list string) (cs : list (list string)) (ps : list string)
    (o : outcome unit) : Prop :=
  (assume_yes args = true ->
   ps = ps0
   /\ exists k,
        5 <= k <= 6
        /\ cs = (cs0 ++ firstn k (publish_commands args feature_branch))%list)
  /\ (forall answer rest,
        assume_yes args = false -> inp = Some answer :: rest ->
        ps = (ps0 ++ [delete_prompt])%list
        /\ (answer = "y" \/ answer = "Y" ->
            exists k,
              5 <= k <= 6
              /\ cs = (cs0
                       ++ firstn k (publish_commands args feature_branch))%list)
        /\ (~ (answer = "y" \/ answer = "Y") ->
            cs = (cs0 ++ firstn 4 (publish_commands args feature_branch))%list
            /\ o = Ret tt)).


(** ** More of what a run shows *)

(** The echo of one output line, line 63. *)
Definition echo (line : string) : event := Print ("git> " ++ line).

(** The git subcommands of the script in the order of the text, on the
    rebase path and on the squash path. *)
Definition rebase_subcommands : list string :=
  ["rev-parse"; "rev-parse"; "rev-parse"; "fetch"; "rev-list"; "rev-parse";
   "rebase"; "push"; "push"; "checkout"; "pull"; "branch"; "push"].

Definition squash_subcommands : list string :=
  ["rev-parse"; "rev-parse"; "rev-parse"; "fetch"; "rev-list"; "rev-parse";
   "show"; "merge"; "reset"; "commit";
   "push"; "push"; "checkout"; "pull"; "branch"; "push"].

(** The command lines of lines 104-134. *)
Definition squash_commands (args : Args) (first_commit_on_branch m : string)
  : list (list string) :=
  [ show_command first_commit_on_branch;
    ["git"; "merge"; target_branch_remote args];
    ["git"; "reset"; "--soft"; target_branch_remote args];
    commit_command m ].

(** Lines 80-155, once the three names are resolved. *)
Definition after_resolve (args : Args)
    (feature_branch target_branch_ref feature_branch_ref : string) : M unit :=
  guard args feature_branch target_branch_ref feature_branch_ref ;;
  found <- divergence args ;;
  let '(first_commit_on_branch, head_sha1) := found in
  (if first_commit_on_branch =? head_sha1 then rebase args
   else squash args first_commit_on_branch) ;;
  publish args feature_branch.

Fixpoint all_ascii (s : string) : bool :=
  match s with
  | EmptyString => true
  | String c r => Py.byte_in 0 127 c && all_ascii r
  end.

(** * Properties *)

(** ** Bytes and lines *)

Module PyFacts.
Import Py.

Lemma append_empty_r (s : string) : (s ++ "")%string = s.
Proof. induction s as [|c s IH]; simpl; [reflexivity|now rewrite IH]. Qed.

Lemma readline_app s : let (l, r) := readline s in (l ++ r)%string = s.
Proof.
  induction s as [|c s IH]; simpl; [reflexivity|].
  destruct (Ascii.eqb c newline); [reflexivity|].
  destruct (readline s) as [l r]. simpl. now rewrite IH.
Qed.

Lemma readline_falsy s : falsy (fst (readline s)) = falsy s.
Proof.
  destruct s as [|c s]; simpl; [reflexivity|].
  destruct (Ascii.eqb c newline); [reflexivity|].
  now destruct (readline s).
Qed.

Lemma readline_length s :
  String.length (fst (readline s)) + String.length (snd (readline s))
  = String.length s.
Proof.
  induction s as [|c s IH]; simpl; [reflexivity|].
  destruct (Ascii.eqb c newline); [reflexivity|].
  destruct (readline s) as [l r]. simpl in *. lia.
Qed.

Lemma readline_shaped s :
  falsy s = false -> line_shaped (fst (readline s)) = true.
Proof.
  induction s as [|c s IH]; [discriminate|]. intros _. simpl.
  destruct (Ascii.eqb c newline) eqn:E; [reflexivity|].
  pose proof (readline_falsy s) as Hf.
  destruct (readline s) as [l r]. simpl in *.
  destruct l as [|d l]; [reflexivity|].
  rewrite E. simpl. apply IH. now rewrite <- Hf.
Qed.

(** The loop over [readline] loses nothing: with fuel of the stream's
    length the lines, put end to end, are the stream. *)
Lemma readlines_fuel_concat fuel s :
  String.length s <= fuel ->
  String.concat "" (readlines_fuel fuel s) = s.
Proof.
  revert s. induction fuel as [|fuel IH]; intros s Hlen.
  - destruct s; simpl in *; [reflexivity|lia].
  - simpl. pose proof (readline_app s) as Happ.
    pose proof (readline_falsy s) as Hf.
    pose proof (readline_length s) as Hl.
    destruct (readline s) as [l r]. simpl in *.
    destruct l as [|c l].
    + simpl in *. destruct s; [reflexivity|discriminate].
    + simpl falsy. cbv iota.
      assert (Hr : String.length r <= fuel) by (simpl in Hl; lia).
      specialize (IH r Hr).
      assert (Hcat : forall xs, String.concat "" (String c l :: xs)
                                = (String c l ++ String.concat "" xs)%string).
      { intros [|x xs]; simpl; [now rewrite append_empty_r|reflexivity]. }
      rewrite Hcat, IH. exact Happ.
Qed.

Lemma readlines_concat s : String.concat "" (readlines s) = s.
Proof. apply readlines_fuel_concat. unfold readlines. lia. Qed.

Lemma readlines_fuel_shaped fuel : forall s,
  Forall (fun l => line_shaped l = true) (readlines_fuel fuel s).
Proof.
  induction fuel as [|fuel IH]; intros s; simpl; [constructor|].
  pose proof (readline_shaped s) as Hs.
  pose proof (readline_falsy s) as Hf.
  destruct (readline s) as [l r]. simpl in *.
  destruct (falsy l) eqn:E; [constructor|].
  constructor; [|apply IH]. apply Hs. now rewrite <- Hf.
Qed.

Lemma readlines_shaped s :
  Forall (fun l => line_shaped l = true) (readlines s).
Proof. apply readlines_fuel_shaped. Qed.

Lemma readlines_empty : readlines "" = [].
Proof. reflexivity. Qed.

(** [rstrip] removes a run of white space from the end, and all of it. *)
Lemma rstrip_spec s :
  exists ws, s = (rstrip s ++ ws)%string
             /\ all_space ws = true /\ ends_in_text (rstrip s) = true.
Proof.
  induction s as [|c s (ws & Hs & Hws & Hend)].
  - exists ""%string. auto.
  - simpl. destruct (is_space c && falsy (rstrip s)) eqn:E.
    + apply andb_true_iff in E. destruct E as [Hc Hf].
      destruct (rstrip s); [|discriminate]. simpl in Hs. subst ws.
      exists (String c s). simpl. rewrite Hc, Hws. auto.
    + exists ws. simpl. split; [now rewrite <- Hs|]. split; [exact Hws|].
      destruct (rstrip s) as [|d r] eqn:R; [|exact Hend].
      simpl in E. rewrite andb_true_r in E. now rewrite E.
Qed.

Lemma lower_ascii_y c :
  Ascii.eqb (lower_ascii c) "y" = (Ascii.eqb c "y" || Ascii.eqb c "Y").
Proof. destruct c as [[] [] [] [] [] [] [] []]; reflexivity. Qed.

(** The test both prompts apply to the answer. *)
Lemma affirmative_iff answer :
  ("y" =? lower answer) = true <-> answer = "y" \/ answer = "Y".
Proof.
  destruct answer as [|c [|c' rest]].
  - simpl. split; [discriminate|intros [|]; discriminate].
  - change ("y" =? lower (String c "")) with
      (Ascii.eqb "y" (lower_ascii c) && true).
    rewrite andb_true_r, Ascii.eqb_sym, lower_ascii_y, orb_true_iff.
    rewrite !Ascii.eqb_eq. split.
    + intros [-> | ->]; auto.
    + intros [H | H]; injection H; auto.
  - split.
    + change ("y" =? lower (String c (String c' rest))) with
        (Ascii.eqb "y" (lower_ascii c) && false).
      rewrite andb_false_r. discriminate.
    + intros [|]; discriminate.
Qed.

End PyFacts.

(** ** The runner as a function of the spawned process *)

Arguments Py.join : simpl never.
Arguments Py.readlines : simpl never.
Arguments Py.str_of_int : simpl never.
Arguments String.append : simpl never.

Lemma extend_nil st : extend st [] = st.
Proof. destruct st; unfold extend; simpl. now rewrite app_nil_r. Qed.

Lemma drain_eq lines : forall output st,
  drain lines output st
  = (extend st (shown lines),
     if clean lines then Ret (output ++ captured lines)%list
     else Raise UnicodeDecodeError).
Proof.
  induction lines as [|line rest IH]; intros output st; simpl.
  - unfold ret. now rewrite extend_nil, app_nil_r.
  - unfold bind at 1, decode, decodable.
    destruct (Py.utf8_valid (Py.rstrip line)); simpl.
    + unfold bind, print. rewrite IH. unfold extend, log; simpl.
      rewrite <- !app_assoc. reflexivity.
    + unfold raise. now rewrite extend_nil.
Qed.

(** [git] in one step: the state it leaves and the way it ends are
    functions of the process it was given. *)
Lemma git_eq arguments st :
  git arguments st
  = (after_git st ("git" :: arguments),
     git_result (spawn_next st ("git" :: arguments))).
Proof.
  unfold git, bind, print, popen, after_git, git_events, git_result,
    output_lines, spawn_next, log.
  simpl. rewrite drain_eq. unfold extend; simpl.
  set (p := git_proc st (spawned st) ("git" :: arguments)).
  destruct (clean (Py.readlines (stdout p))); simpl.
  - destruct (returncode p =? 0)%Z; simpl; unfold ret, sys_exit, diagnostic;
      rewrite <- ?app_assoc; simpl; rewrite <- ?app_assoc; reflexivity.
  - rewrite <- ?app_assoc. simpl. rewrite ?app_nil_r. reflexivity.
Qed.

Lemma commands_app t1 t2 :
  commands (t1 ++ t2) = (commands t1 ++ commands t2)%list.
Proof.
  induction t1 as [|[]]; simpl; auto. now rewrite IHt1.
Qed.

Lemma prompts_app t1 t2 :
  prompts (t1 ++ t2) = (prompts t1 ++ prompts t2)%list.
Proof.
  induction t1 as [|[]]; simpl; auto. now rewrite IHt1.
Qed.

Lemma commands_shown lines : commands (shown lines) = [].
Proof.
  induction lines as [|l r IH]; simpl; [reflexivity|].
  now destruct (decodable l).
Qed.

Lemma prompts_shown lines : prompts (shown lines) = [].
Proof.
  induction lines as [|l r IH]; simpl; [reflexivity|].
  now destruct (decodable l).
Qed.

Lemma commands_git_events cmdline p :
  commands (git_events cmdline p) = [cmdline].
Proof.
  unfold git_events. simpl. rewrite commands_app, commands_shown. simpl.
  destruct (clean _); [destruct (_ =? _)%Z|]; reflexivity.
Qed.

Lemma prompts_git_events cmdline p : prompts (git_events cmdline p) = [].
Proof.
  unfold git_events. simpl. rewrite prompts_app, prompts_shown. simpl.
  destruct (clean _); [destruct (_ =? _)%Z|]; reflexivity.
Qed.

Lemma commands_repeat_input p n : commands (repeat (Input p) n) = [].
Proof. induction n; simpl; auto. Qed.

Lemma prompts_repeat_input p n : prompts (repeat (Input p) n) = repeat p n.
Proof. induction n; simpl; congruence. Qed.

Lemma git_result_ret p out :
  git_result p = Ret out ->
  clean (Py.readlines (stdout p)) = true /\ returncode p = 0%Z
  /\ out = output_lines p.
Proof.
  unfold git_result. destruct (clean _); [|discriminate].
  destruct (returncode p =? 0)%Z eqn:E; [|discriminate].
  intros [= <-]. apply Z.eqb_eq in E. auto.
Qed.

Lemma git_result_exit p c :
  git_result p = Exit c ->
  clean (Py.readlines (stdout p)) = true /\ returncode p <> 0%Z /\ c = 1%Z.
Proof.
  unfold git_result. destruct (clean _); [|discriminate].
  destruct (returncode p =? 0)%Z eqn:E; [discriminate|].
  intros [= <-]. apply Z.eqb_neq in E. auto.
Qed.

Lemma git_result_raise p e :
  git_result p = Raise e ->
  clean (Py.readlines (stdout p)) = false /\ e = UnicodeDecodeError.
Proof.
  unfold git_result. destruct (clean _); [destruct (_ =? _)%Z; discriminate|].
  intros [= <-]. auto.
Qed.

Lemma git_result_silent p :
  returncode p = 0%Z -> Py.readlines (stdout p) = [] -> git_result p = Ret [].
Proof.
  intros Hrc Hl. unfold git_result, output_lines. rewrite Hl, Hrc. reflexivity.
Qed.

Lemma git_result_failed p :
  returncode p <> 0%Z -> forall out, git_result p <> Ret out.
Proof.
  intros Hrc out H. apply git_result_ret in H. now destruct H as (_ & H & _).
Qed.

(** ** The prompts *)

Lemma read_contents_fuel_run pending :
  forall fuel contents gp n tr,
    length pending < fuel ->
    read_contents_fuel fuel contents (mkState gp pending n tr)
    = (mkState gp (after_eof pending) n
         (tr ++ repeat (Input "") (S (length (entered pending))))%list,
       Ret (contents ++ entered pending)%list).
Proof.
  induction pending as [|[line|] rest IH]; intros fuel contents gp n tr Hfuel;
    (destruct fuel as [|fuel]; [simpl in Hfuel; lia|]); simpl.
  - unfold bind, input_or_eof, input; simpl. unfold ret.
    now rewrite app_nil_r.
  - unfold bind at 1, input_or_eof, input; simpl.
    rewrite IH by (simpl in Hfuel; lia).
    rewrite <- !app_assoc. reflexivity.
  - unfold bind, input_or_eof, input; simpl. unfold ret.
    now rewrite app_nil_r.
Qed.

(** The loop of lines 126-131 always ends: it returns the lines typed up
    to the first end-of-file, having asked once per line and once more. *)
Lemma read_contents_run st :
  read_contents st
  = (mkState (git_proc st) (after_eof (stdin st)) (spawned st)
       (trace st ++ repeat (Input "") (S (length (entered (stdin st)))))%list,
     Ret (entered (stdin st))).
Proof.
  unfold read_contents. destruct st as [gp pending n tr]; simpl stdin.
  rewrite read_contents_fuel_run by lia. reflexivity.
Qed.

(** ** Sequencing *)

Lemma bind_ret {A B} (m : M A) (k : A -> M B) st st' a :
  m st = (st', Ret a) -> bind m k st = k a st'.
Proof. intros H. unfold bind. now rewrite H. Qed.

Lemma bind_exit {A B} (m : M A) (k : A -> M B) st st' c :
  m st = (st', Exit c) -> bind m k st = (st', Exit c).
Proof. intros H. unfold bind. now rewrite H. Qed.

Lemma bind_raise {A B} (m : M A) (k : A -> M B) st st' e :
  m st = (st', Raise e) -> bind m k st = (st', Raise e).
Proof. intros H. unfold bind. now rewrite H. Qed.

(** ** Rules for [wp] *)

Lemma wp_ret {A} (a : A) st cs ps (Q : post A) :
  Q st cs ps (Ret a) -> wp (ret a) st cs ps Q.
Proof. intros H Hc Hp. simpl. now rewrite Hc, Hp. Qed.

Lemma wp_exit {A} c st cs ps (Q : post A) :
  Q st cs ps (Exit c) -> wp (sys_exit c) st cs ps Q.
Proof. intros H Hc Hp. simpl. now rewrite Hc, Hp. Qed.

Lemma wp_raise {A} e st cs ps (Q : post A) :
  Q st cs ps (Raise e) -> wp (raise e) st cs ps Q.
Proof. intros H Hc Hp. simpl. now rewrite Hc, Hp. Qed.

Lemma wp_bind {A B} (m : M A) (k : A -> M B) st cs ps (Q : post B) :
  wp m st cs ps (fun st' cs' ps' o =>
    match o with
    | Ret a => wp (k a) st' cs' ps' Q
    | Exit c => Q st' cs' ps' (Exit c)
    | Raise e => Q st' cs' ps' (Raise e)
    end) ->
  wp (bind m k) st cs ps Q.
Proof.
  unfold wp, bind. intros H Hc Hp. specialize (H Hc Hp).
  destruct (m st) as [st' [a|c|e]]; simpl in *; auto.
Qed.

Lemma wp_print text gp inp n tr cs ps (Q : post unit) :
  Q (mkState gp inp n (tr ++ [Print text])%list) cs ps (Ret tt) ->
  wp (print text) (mkState gp inp n tr) cs ps Q.
Proof.
  intros H Hc Hp. simpl in *.
  now rewrite commands_app, prompts_app, Hc, Hp, !app_nil_r.
Qed.

Lemma wp_git arguments gp inp n tr cs ps (Q : post (list string)) :
  let cmdline := "git" :: arguments in
  let st' :=
    mkState gp inp (S n) (tr ++ git_events cmdline (gp n cmdline))%list in
  (forall out, git_result (gp n cmdline) = Ret out ->
               Q st' (cs ++ [cmdline])%list ps (Ret out)) ->
  (git_result (gp n cmdline) = Exit 1 ->
   Q st' (cs ++ [cmdline])%list ps (Exit 1)) ->
  (git_result (gp n cmdline) = Raise UnicodeDecodeError ->
   Q st' (cs ++ [cmdline])%list ps (Raise UnicodeDecodeError)) ->
  wp (git arguments) (mkState gp inp n tr) cs ps Q.
Proof.
  intros cmdline st' Hret Hexit Hraise Hc Hp. rewrite git_eq.
  unfold after_git, spawn_next. cbn [git_proc stdin spawned trace fst snd] in *.
  fold cmdline.
  rewrite commands_app, prompts_app, commands_git_events, prompts_git_events,
    Hc, Hp, app_nil_r.
  fold st'.
  destruct (git_result (gp n cmdline)) as [out|c|e] eqn:E.
  - now apply Hret.
  - apply git_result_exit in E as E'. destruct E' as (_ & _ & ->).
    now apply Hexit.
  - apply git_result_raise in E as E'. destruct E' as (_ & ->).
    now apply Hraise.
Qed.

Lemma wp_input prompt gp inp n tr cs ps (Q : post string) :
  (forall line rest, inp = Some line :: rest ->
     Q (mkState gp rest n (tr ++ [Input prompt])%list) cs
       (ps ++ [prompt])%list (Ret line)) ->
  (forall rest, inp = [] /\ rest = [] \/ inp = None :: rest ->
     Q (mkState gp rest n (tr ++ [Input prompt])%list) cs
       (ps ++ [prompt])%list (Raise EOFError)) ->
  wp (input prompt) (mkState gp inp n tr) cs ps Q.
Proof.
  intros Hline Heof Hc Hp. unfold input.
  cbn [git_proc stdin spawned trace] in *.
  destruct inp as [|[line|] rest]; cbn [fst snd trace];
    rewrite commands_app, prompts_app, Hc, Hp, app_nil_r; cbn [prompts].
  - apply (Heof []). auto.
  - now apply Hline.
  - apply (Heof rest). auto.
Qed.

Lemma wp_read_contents gp inp n tr cs ps (Q : post (list string)) :
  Q (mkState gp (after_eof inp) n
       (tr ++ repeat (Input "") (S (length (entered inp))))%list)
    cs (ps ++ repeat "" (S (length (entered inp))))%list
    (Ret (entered inp)) ->
  wp read_contents (mkState gp inp n tr) cs ps Q.
Proof.
  intros H Hc Hp. rewrite read_contents_run.
  cbn [git_proc stdin spawned trace fst snd] in *.
  now rewrite commands_app, prompts_app, commands_repeat_input,
    prompts_repeat_input, Hc, Hp, app_nil_r.
Qed.

Lemma wp_item0 xs st cs ps (Q : post string) :
  (forall x rest, xs = x :: rest -> Q st cs ps (Ret x)) ->
  (xs = [] -> Q st cs ps (Raise IndexError)) ->
  wp (item0 xs) st cs ps Q.
Proof.
  intros H1 H2. destruct xs as [|x rest]; [apply wp_raise|apply wp_ret]; eauto.
Qed.

Lemma wp_first_left commits st cs ps (Q : post string) :
  (forall commit, find (Py.startswith "<") commits = Some commit ->
                  Q st cs ps (Ret (Py.drop1 commit))) ->
  (find (Py.startswith "<") commits = None ->
   Q st cs ps (Raise StopIteration)) ->
  wp (first_left commits) st cs ps Q.
Proof.
  intros H1 H2. unfold first_left.
  destruct (find _ commits); [apply wp_ret|apply wp_raise]; eauto.
Qed.

Lemma wp_confirm assume prompt gp inp n tr cs ps (Q : post bool) :
  (assume = true -> Q (mkState gp inp n tr) cs ps (Ret true)) ->
  (forall line rest, assume = false -> inp = Some line :: rest ->
     Q (mkState gp rest n (tr ++ [Input prompt])%list) cs
       (ps ++ [prompt])%list (Ret ("y" =? Py.lower line))) ->
  (forall rest, assume = false ->
     inp = [] /\ rest = [] \/ inp = None :: rest ->
     Q (mkState gp rest n (tr ++ [Input prompt])%list) cs
       (ps ++ [prompt])%list (Raise EOFError)) ->
  wp (confirm assume prompt) (mkState gp inp n tr) cs ps Q.
Proof.
  intros Hyes Hline Heof. unfold confirm. destruct assume.
  - apply wp_ret. now apply Hyes.
  - apply wp_bind, wp_input.
    + intros line rest E. apply wp_ret. now apply Hline.
    + intros rest E. now apply Heof.
Qed.

(** A property of every run of [m] from [st], from its [wp]. *)
Lemma wp_run {A} (m : M A) st (Q : post A) :
  wp m st (commands (trace st)) (prompts (trace st)) Q ->
  Q (fst (m st)) (commands (trace (fst (m st))))
    (prompts (trace (fst (m st)))) (snd (m st)).
Proof. intros H. now apply H. Qed.

#[local] Opaque git_events.

Ltac wp_step :=
  lazymatch goal with
  | |- wp (bind _ _) _ _ _ _ => apply wp_bind
  | |- wp (ret _) _ _ _ _ => apply wp_ret
  | |- wp (print _) _ _ _ _ => apply wp_print
  | |- wp (sys_exit _) _ _ _ _ => apply wp_exit
  | |- wp (raise _) _ _ _ _ => apply wp_raise
  | |- wp (git _) _ _ _ _ =>
      apply wp_git; [intros ?out ?Hgit | intros ?Hgit | intros ?Hgit]
  | |- wp (item0 _) _ _ _ _ =>
      apply wp_item0; [intros ?x ?rest ?Hout | intros ?Hout]
  | |- wp (first_left _) _ _ _ _ =>
      apply wp_first_left; [intros ?commit ?Hfind | intros ?Hfind]
  | |- wp (confirm _ _) _ _ _ _ =>
      apply wp_confirm;
      [intros ?Hyes | intros ?line ?rest ?Hno ?Hin | intros ?rest ?Hno ?Hin]
  | |- wp read_contents _ _ _ _ => apply wp_read_contents
  | |- wp (if ?b then _ else _) _ _ _ _ => destruct b eqn:?
  | |- wp (match ?x with _ => _ end) _ _ _ _ => destruct x eqn:?
  | |- wp (?f _ _ _ _) _ _ _ _ => unfold f
  | |- wp (?f _ _ _) _ _ _ _ => unfold f
  | |- wp (?f _ _) _ _ _ _ => unfold f
  | |- wp (?f _) _ _ _ _ => unfold f
  end.

(** Walk to every way the computation can end, running [hook] before each
    step, and close each end with [leaf]. *)
Ltac crawl_with hook leaf :=
  cbv beta iota;
  lazymatch goal with
  | |- wp _ _ _ _ _ => hook; wp_step; crawl_with hook leaf
  | |- _ => leaf
  end.

Ltac crawl leaf := crawl_with ltac:(idtac) leaf.

(** ** Position by position *)

Lemma each_from_nth {X} (P : nat -> X -> Prop) xs : forall k,
  each_from P k xs -> forall n x, nth_error xs n = Some x -> P (k + n) x.
Proof.
  induction xs as [|y ys IH]; intros k H n x Hn.
  - destruct n; discriminate.
  - destruct H as [Hy Hys]. destruct n as [|n]; simpl in Hn.
    + injection Hn as <-. now rewrite Nat.add_0_r.
    + rewrite <- Nat.add_succ_comm. now apply IH.
Qed.

Lemma each_nth {X} (P : nat -> X -> Prop) xs :
  each_from P 0 xs -> forall n x, nth_error xs n = Some x -> P n x.
Proof. intros H n x Hn. exact (each_from_nth P xs 0 H n x Hn). Qed.

Lemma each_from_snoc {X} (P : nat -> X -> Prop) xs x : forall k,
  each_from P k xs -> P (k + length xs) x -> each_from P k (xs ++ [x]).
Proof.
  induction xs as [|y ys IH]; intros k H Hx; simpl in *.
  - rewrite Nat.add_0_r in Hx. auto.
  - destruct H as [Hy Hys]. split; [exact Hy|].
    apply IH; [exact Hys|]. now rewrite Nat.add_succ_comm.
Qed.

Lemma each_from_impl {X} (P Q : nat -> X -> Prop) xs : forall k,
  (forall n x, P n x -> Q n x) -> each_from P k xs -> each_from Q k xs.
Proof.
  induction xs as [|y ys IH]; intros k HPQ H; simpl in *; [exact I|].
  destruct H; split; auto.
Qed.

Lemma benign_not_fatal gp cs o n cmd : benign gp n cmd -> fatal gp cs o n cmd.
Proof.
  intros (out & Hout & Hparse & Hlist). unfold fatal. cbv zeta.
  split; [|split].
  - intros Hrc. exfalso. apply Hrc.
    exact (proj1 (proj2 (git_result_ret _ _ Hout))).
  - intros Hs Hrc Hl. exfalso. rewrite (git_result_silent _ Hrc Hl) in Hout.
    injection Hout as <-. now apply Hparse.
  - intros Hs commits Hc Hf. exfalso. rewrite Hc in Hout.
    injection Hout as <-. now apply Hlist.
Qed.

Lemma fatal_all gp cs o :
  each_from (benign gp) 0 cs -> each_from (fatal gp cs o) 0 cs.
Proof.
  apply each_from_impl. intros n x. apply benign_not_fatal.
Qed.

Lemma fatal_last gp cs cmd o :
  each_from (benign gp) 0 cs ->
  fatal gp (cs ++ [cmd]) o (length cs) cmd ->
  each_from (fatal gp (cs ++ [cmd]) o) 0 (cs ++ [cmd]).
Proof.
  intros H Hlast. apply each_from_snoc; [|exact Hlast].
  revert H. apply each_from_impl. intros n x. apply benign_not_fatal.
Qed.

Ltac prove_benign :=
  cbn [length app Nat.add]; unfold benign; cbn [subcommand nth];
  eexists; split; [eassumption|];
  split; intros ?Hs; first [discriminate | congruence].

(** Once the last command is known to be [benign], say so of the whole
    list. *)
Ltac note_benign :=
  idtac;
  match goal with
  | Hinv : each_from (benign ?gp) 0 ?c0
    |- wp _ _ (?c0 ++ [?cmd])%list _ _ =>
      let H := fresh "Hinv" in
      assert (H : each_from (benign gp) 0 (c0 ++ [cmd]))
        by (apply each_from_snoc; [exact Hinv | prove_benign]);
      clear Hinv
  | _ => idtac
  end.

Ltac fatal_leaf :=
  first
  [ apply fatal_all; assumption
  | apply fatal_last; [assumption|];
    unfold fatal; cbn [subcommand nth length app]; cbv zeta;
    repeat match goal with
    | |- _ /\ _ => split
    | H : git_result ?p = Ret _ |- returncode ?p <> _ -> _ =>
        let Hrc := fresh in
        intros Hrc; exfalso;
        exact (Hrc (proj1 (proj2 (git_result_ret _ _ H))))
    | |- returncode _ <> _ -> _ => intros _; split; reflexivity
    | |- _ = "rev-parse" -> _ =>
        let Hsub := fresh in
        let Hrc := fresh in
        let Hl := fresh in
        intros Hsub Hrc Hl;
        first [ discriminate Hsub
              | split; reflexivity
              | exfalso; pose proof (git_result_silent _ Hrc Hl); congruence ]
    | |- _ = "rev-list" -> _ =>
        let Hsub := fresh in
        let Hc := fresh in
        let Hf := fresh in
        intros Hsub ? Hc Hf;
        first [ discriminate Hsub
              | split; reflexivity
              | exfalso; congruence ]
    end ].

(** ** Every run, command by command *)

(** Whatever the world, a run owes each of its commands what [fatal]
    says. *)
Lemma run_fatal args w :
  each_from (fatal (processes w) (commands (trace (fst (run args w))))
               (snd (run args w)))
    0 (commands (trace (fst (run args w)))).
Proof.
  unfold run.
  apply (wp_run (main args) (start w) (fun st cs ps o =>
    each_from (fatal (processes w) cs o) 0 cs)).
  unfold start. cbn [trace commands prompts].
  assert (Hinv : each_from (benign (processes w)) 0 []) by exact I.
  crawl_with note_benign fatal_leaf.
Qed.


Lemma run_owes args w n cmd :
  nth_error (commands (trace (fst (run args w)))) n = Some cmd ->
  fatal (processes w) (commands (trace (fst (run args w))))
    (snd (run args w)) n cmd.
Proof. apply each_nth, run_fatal. Qed.


Lemma clean_valid lines :
  clean lines = true ->
  Forall (fun line => Py.utf8_valid line = true) (captured lines).
Proof.
  induction lines as [|l r IH]; simpl; [constructor|].
  intros H. apply andb_true_iff in H. destruct H as [Hl Hr].
  constructor; [exact Hl|now apply IH].
Qed.

(** * The claims *)

(** ** The command runner *)

(** C8.  When [git] returns, what it returns is the output of the
    subprocess cut into lines at each newline, in order and with nothing
    lost, each line without its trailing white space and decoded; and the
    process exited with 0. *)
Theorem git_returns_output_lines arguments st st' out :
  git arguments st = (st', Ret out) ->
  let p := git_proc st (spawned st) ("git" :: arguments) in
  out = map Py.rstrip (Py.readlines (stdout p))
  /\ String.concat "" (Py.readlines (stdout p)) = stdout p
  /\ Forall (fun raw => line_shaped raw = true) (Py.readlines (stdout p))
  /\ (forall raw, exists ws,
        raw = (Py.rstrip raw ++ ws)%string /\ all_space ws = true
        /\ ends_in_text (Py.rstrip raw) = true)
  /\ Forall (fun line => Py.utf8_valid line = true) out
  /\ returncode p = 0%Z
  /\ In (Popen ("git" :: arguments)) (trace st').
Proof.
  intros H p. rewrite git_eq in H. injection H as Hst Hres.
  apply git_result_ret in Hres. destruct Hres as (Hclean & Hrc & ->).
  fold p in Hclean, Hrc.
  repeat split.
  - apply PyFacts.readlines_concat.
  - apply PyFacts.readlines_shaped.
  - intros raw. apply PyFacts.rstrip_spec.
  - now apply clean_valid.
  - exact Hrc.
  - subst st'. unfold after_git. cbn [trace]. apply in_or_app. right.
    clear. assert (E : commands (git_events ("git" :: arguments)
                                   (spawn_next st ("git" :: arguments)))
                       = ["git" :: arguments])
      by apply commands_git_events.
    revert E. generalize (git_events ("git" :: arguments)
                            (spawn_next st ("git" :: arguments))).
    intros evs. induction evs as [|[t|c|q] evs IH]; simpl; intros E.
    + discriminate.
    + right. now apply IH.
    + left. now injection E as -> _.
    + right. now apply IH.
Qed.

Lemma git_returns_output_lines_witness :
  git ["show"; "--no-patch"; "--format=%B"; "2222222"]
      (mkState (scripted two_ahead) [] 6 [])
  = (after_git (mkState (scripted two_ahead) [] 6 [])
       (show_command "2222222"),
     Ret ["Add x"; ""; "First draft."])
  /\ ["Add x"; ""; "First draft."]
     = map Py.rstrip (Py.readlines (stdout (scripted two_ahead 6
                                              (show_command "2222222")))).
Proof.
  assert (E : git ["show"; "--no-patch"; "--format=%B"; "2222222"]
                  (mkState (scripted two_ahead) [] 6 [])
              = (after_git (mkState (scripted two_ahead) [] 6 [])
                   (show_command "2222222"),
                 Ret ["Add x"; ""; "First draft."])).
  { rewrite git_eq. reflexivity. }
  split; [exact E|].
  exact (proj1 (git_returns_output_lines _ _ _ _ E)).
Defined.

(** C4, as the code has it.  A command that exits with a code other than
    0 never lets [git] return: the run ends there with exit status 1, and
    no later command is issued.  When the output of the command is
    well-formed UTF-8, [git] ends by [sys.exit(1)] and the last thing it
    prints is the diagnostic with that code.  A command that exits with 0
    and whose output is well-formed UTF-8 makes [git] return its lines.
    On output that is not well-formed UTF-8, [git] ends in the decoder's
    exception whatever the exit code. *)
Theorem git_exit_status :
  (forall arguments st,
     let p := git_proc st (spawned st) ("git" :: arguments) in
     returncode p <> 0%Z ->
     exit_code (snd (git arguments st)) = 1%Z
     /\ (forall out, snd (git arguments st) <> Ret out)
     /\ (clean (Py.readlines (stdout p)) = true ->
         snd (git arguments st) = Exit 1
         /\ exists before,
              trace (fst (git arguments st))
              = (before ++ [Print (diagnostic (returncode p))])%list))
  /\ (forall arguments st,
        let p := git_proc st (spawned st) ("git" :: arguments) in
        returncode p = 0%Z -> clean (Py.readlines (stdout p)) = true ->
        snd (git arguments st) = Ret (output_lines p))
  /\ (forall args w n cmd,
        nth_error (commands (trace (fst (run args w)))) n = Some cmd ->
        returncode (processes w n cmd) <> 0%Z ->
        exit_code (snd (run args w)) = 1%Z
        /\ length (commands (trace (fst (run args w)))) = S n)
  /\ (forall arguments st,
        let p := git_proc st (spawned st) ("git" :: arguments) in
        clean (Py.readlines (stdout p)) = false ->
        snd (git arguments st) = Raise UnicodeDecodeError).
Proof.
  split; [|split; [|split]].
  - intros arguments st p Hrc. rewrite git_eq. cbn [fst snd].
    change (spawn_next st ("git" :: arguments)) with p.
    pose proof (git_result_failed p Hrc) as Hne.
    split; [|split].
    + destruct (git_result p) as [out|c|e] eqn:E.
      * now elim (Hne out).
      * apply git_result_exit in E. now destruct E as (_ & _ & ->).
      * reflexivity.
    + exact Hne.
    + intros Hclean. unfold git_result. rewrite Hclean.
      apply Z.eqb_neq in Hrc. rewrite Hrc. split; [reflexivity|].
      unfold after_git. cbn [trace].
      change (spawn_next st ("git" :: arguments)) with p.
      Transparent git_events. unfold git_events. Opaque git_events.
      rewrite Hclean, Hrc.
      exists (trace st
              ++ [Print ""; Print (Py.join " " ("git" :: arguments));
                  Popen ("git" :: arguments); Print ""]
              ++ shown (Py.readlines (stdout p))
              ++ [Print ""; Print ""])%list.
      rewrite <- !app_assoc. reflexivity.
  - intros arguments st p Hrc Hclean. rewrite git_eq. cbn [snd].
    change (spawn_next st ("git" :: arguments)) with p.
    unfold git_result. now rewrite Hclean, Hrc.
  - intros args w n cmd Hn Hrc.
    destruct (run_owes args w n cmd Hn) as (H & _). now apply H.
  - intros arguments st p Hclean. rewrite git_eq. cbn [snd].
    change (spawn_next st ("git" :: arguments)) with p.
    unfold git_result. now rewrite Hclean.
Qed.

Lemma git_exit_status_witness :
  exit_code (snd (run interactive (world_of fetch_fails []))) = 1%Z
  /\ length (commands (trace (fst (run interactive (world_of fetch_fails [])))))
     = 4.
Proof.
  apply (proj1 (proj2 (proj2 git_exit_status)) interactive
           (world_of fetch_fails []) 3 ["git"; "fetch"; "origin"]).
  - reflexivity.
  - discriminate.
Defined.

(** C4, as stated, fails on output that is not UTF-8: the command exits
    with 128, but [git] ends in the decoder's exception and the
    diagnostic is never printed. *)
Lemma git_undecodable_output :
  returncode (scripted undecodable 0 ["git"; "fetch"; "origin"]) = 128%Z
  /\ snd (git ["fetch"; "origin"] (start (world_of undecodable [])))
     = Raise UnicodeDecodeError
  /\ trace (fst (git ["fetch"; "origin"] (start (world_of undecodable []))))
     = [Print ""; Print "git fetch origin";
        Popen ["git"; "fetch"; "origin"]; Print ""].
Proof. repeat split. Qed.

(** C9.  Whenever a run issues a [rev-parse] command that succeeds
    without writing a line, the runner returns the empty list, taking its
    element 0 raises [IndexError], and that uncaught exception is how the
    run ends, right after that command. *)
Theorem rev_parse_without_output args w n cmd :
  nth_error (commands (trace (fst (run args w)))) n = Some cmd ->
  subcommand cmd = "rev-parse" ->
  returncode (processes w n cmd) = 0%Z ->
  Py.readlines (stdout (processes w n cmd)) = [] ->
  git_result (processes w n cmd) = Ret []
  /\ (forall st, item0 [] st = (st, Raise IndexError))
  /\ snd (run args w) = Raise IndexError
  /\ exit_code (snd (run args w)) = 1%Z
  /\ length (commands (trace (fst (run args w)))) = S n.
Proof.
  intros Hn Hsub Hrc Hlines.
  destruct (run_owes args w n cmd Hn) as (_ & H & _).
  destruct (H Hsub Hrc Hlines) as [Ho Hlen].
  split; [now apply git_result_silent|].
  split; [reflexivity|].
  rewrite Ho. auto.
Qed.

Lemma rev_parse_without_output_witness :
  snd (run interactive (world_of [] [])) = Raise IndexError
  /\ length (commands (trace (fst (run interactive (world_of [] []))))) = 1.
Proof.
  destruct (rev_parse_without_output interactive (world_of [] []) 0
              ["git"; "rev-parse"; "--abbrev-ref"; "--verify"; "HEAD"]
              eq_refl eq_refl eq_refl eq_refl)
    as (_ & _ & Ho & _ & Hlen).
  exact (conj Ho Hlen).
Defined.

Lemma find_none {X} (f : X -> bool) xs :
  Forall (fun x => f x = false) xs -> find f xs = None.
Proof.
  induction 1 as [|x xs Hx _ IH]; simpl; [reflexivity|]. now rewrite Hx.
Qed.

Lemma find_first {X} (f : X -> bool) before x after :
  Forall (fun y => f y = false) before -> f x = true ->
  find f (before ++ x :: after) = Some x.
Proof.
  induction 1 as [|y ys Hy _ IH]; simpl; intros Hx.
  - now rewrite Hx.
  - rewrite Hy. now apply IH.
Qed.

Lemma startswith_marker commit :
  Py.startswith "<" commit = true ->
  commit = String "<" (Py.drop1 commit).
Proof.
  destruct commit as [|c r]; [discriminate|].
  unfold Py.startswith. cbn [String.prefix Py.drop1].
  destruct (Ascii.ascii_dec "<" c) as [E|E]; [now rewrite <- E|discriminate].
Qed.

(** C5.  The first commit of the feature branch is what follows the
    marker in the first line of the revision list that starts with [<];
    on a list with no such line the selection raises [StopIteration], and
    a run whose [rev-list] command returns such a list ends there with
    that uncaught exception. *)
Theorem first_commit_on_branch_choice :
  (forall before commit after st,
     Forall (fun c => Py.startswith "<" c = false) before ->
     Py.startswith "<" commit = true ->
     first_left (before ++ commit :: after) st = (st, Ret (Py.drop1 commit))
     /\ commit = String "<" (Py.drop1 commit))
  /\ (forall commits st,
        Forall (fun c => Py.startswith "<" c = false) commits ->
        first_left commits st = (st, Raise StopIteration))
  /\ (forall args w n cmd commits,
        nth_error (commands (trace (fst (run args w)))) n = Some cmd ->
        subcommand cmd = "rev-list" ->
        git_result (processes w n cmd) = Ret commits ->
        Forall (fun c => Py.startswith "<" c = false) commits ->
        snd (run args w) = Raise StopIteration
        /\ exit_code (snd (run args w)) = 1%Z
        /\ length (commands (trace (fst (run args w)))) = S n).
Proof.
  split; [|split].
  - intros before commit after st Hbefore Hcommit. split.
    + unfold first_left. now rewrite (find_first _ _ _ _ Hbefore Hcommit).
    + now apply startswith_marker.
  - intros commits st H. unfold first_left. now rewrite (find_none _ _ H).
  - intros args w n cmd commits Hn Hsub Hres Hnone.
    destruct (run_owes args w n cmd Hn) as (_ & _ & H).
    destruct (H Hsub commits Hres (find_none _ _ Hnone)) as [Ho Hlen].
    rewrite Ho. auto.
Qed.

Lemma first_commit_on_branch_choice_witness :
  first_left [">1111112"; "<2222222"; "<3333333"] (start (world_of [] []))
  = (start (world_of [] []), Ret "2222222")
  /\ snd (run interactive (world_of nothing_ahead [])) = Raise StopIteration.
Proof.
  split.
  - apply (proj1 first_commit_on_branch_choice [">1111112"] "<2222222"
             ["<3333333"]).
    + repeat constructor.
    + reflexivity.
  - apply (proj2 (proj2 first_commit_on_branch_choice) interactive
             (world_of nothing_ahead []) 4
             ["git"; "rev-list"; "--left-right"; "--reverse";
              "HEAD...origin/master"] [">1111112"]).
    + reflexivity.
    + reflexivity.
    + reflexivity.
    + repeat constructor.
Defined.


(** ** The phases of the script *)

Lemma run_after_integrate args w :
  match integrate args (start w) with
  | (st1, Ret feature_branch) => run args w = publish args feature_branch st1
  | (st1, Exit c) => run args w = (st1, Exit c)
  | (st1, Raise e) => run args w = (st1, Raise e)
  end.
Proof.
  unfold run, main, bind.
  destruct (integrate args (start w)) as [st1 [fb|c|e]]; reflexivity.
Qed.

Lemma integrate_after_prepare args st :
  match prepare args st with
  | (st1, Ret (feature_branch, first_commit_on_branch, head_sha1)) =>
      integrate args st
      = ((if first_commit_on_branch =? head_sha1 then rebase args
          else squash args first_commit_on_branch) ;;
         ret feature_branch) st1
  | (st1, Exit c) => integrate args st = (st1, Exit c)
  | (st1, Raise e) => integrate args st = (st1, Raise e)
  end.
Proof.
  destruct (prepare args st) as [st1 [[[fb first] head]|c|e]] eqn:E;
    unfold integrate.
  - now rewrite (bind_ret _ _ _ _ _ E).
  - exact (bind_exit _ _ _ _ _ E).
  - exact (bind_raise _ _ _ _ _ E).
Qed.

(** What is known of the state once the three names are resolved. *)
Lemma resolve_ret args w st1 fb target_ref feature_ref :
  resolve args (start w) = (st1, Ret (fb, target_ref, feature_ref)) ->
  git_proc st1 = processes w /\ stdin st1 = typed w /\ spawned st1 = 3
  /\ commands (trace st1) = resolve_commands args fb
  /\ prompts (trace st1) = [].
Proof.
  intros H.
  pose proof (wp_run (resolve args) (start w) (fun st cs ps o =>
    forall fb t f, o = Ret (fb, t, f) ->
    git_proc st = processes w /\ stdin st = typed w /\ spawned st = 3
    /\ cs = resolve_commands args fb /\ ps = [])) as W.
  rewrite H in W. cbn [fst snd] in W.
  refine (W _ fb target_ref feature_ref eq_refl). clear.
  unfold start. cbn [trace commands prompts].
  crawl ltac:(idtac; intros ? ? ? [=]; subst; repeat split).
Qed.

(** What is known of the state when the script reaches line 100. *)
Lemma prepare_ret args w st1 fb first head :
  prepare args (start w) = (st1, Ret (fb, first, head)) ->
  git_proc st1 = processes w /\ stdin st1 = typed w /\ spawned st1 = 6
  /\ commands (trace st1) = prepare_commands args fb
  /\ prompts (trace st1) = [].
Proof.
  intros H.
  pose proof (wp_run (prepare args) (start w) (fun st cs ps o =>
    forall fb first head, o = Ret (fb, first, head) ->
    git_proc st = processes w /\ stdin st = typed w /\ spawned st = 6
    /\ cs = prepare_commands args fb /\ ps = [])) as W.
  rewrite H in W. cbn [fst snd] in W.
  refine (W _ fb first head eq_refl). clear.
  unfold start. cbn [trace commands prompts].
  crawl ltac:(idtac; intros ? ? ? [=]; subst; repeat split).
Qed.

Ltac published_leaf :=
  rewrite <- ?app_assoc; cbn [app]; unfold published;
  first
  [ exists 1; split; [lia|]; split; [reflexivity|]
  | exists 2; split; [lia|]; split; [reflexivity|]
  | exists 3; split; [lia|]; split; [reflexivity|]
  | exists 4; split; [lia|]; split; [reflexivity|]
  | exists 5; split; [lia|]; split; [reflexivity|]
  | exists 6; split; [lia|]; split; [reflexivity|] ];
  (split; [first [left; reflexivity | right; reflexivity]|]);
  (split;
   [ intros Hk;
     first
     [ exfalso; lia
     | left; assumption
     | right; do 2 eexists; split; [eassumption|];
       apply PyFacts.affirmative_iff; assumption ]
   | intros Ho; first [discriminate Ho | left; reflexivity | right; reflexivity] ]).

Lemma publish_run args fb gp inp n tr :
  published args fb inp (commands tr) (prompts tr)
    (commands (trace (fst (publish args fb (mkState gp inp n tr)))))
    (prompts (trace (fst (publish args fb (mkState gp inp n tr)))))
    (snd (publish args fb (mkState gp inp n tr))).
Proof.
  apply (wp_run (publish args fb) (mkState gp inp n tr) (fun st cs ps o =>
    published args fb inp (commands tr) (prompts tr) cs ps o)).
  cbn [trace].
  generalize (commands tr) (prompts tr). intros cs0 ps0.
  crawl published_leaf.
Qed.

Lemma returns_pair {A} (m : M A) st a :
  snd (m st) = Ret a -> m st = (fst (m st), Ret a).
Proof. intros H. rewrite <- H. apply surjective_pairing. Qed.

Lemma Forall_firstn {X} (P : X -> Prop) (xs : list X) : forall k,
  Forall P xs -> Forall P (firstn k xs).
Proof.
  induction xs as [|x xs IH]; intros [|k] H; simpl; try constructor.
  - now inversion H.
  - apply IH. now inversion H.
Qed.

(** From line 100 on. *)
Lemma run_from_prepare args w st1 fb first head :
  prepare args (start w) = (st1, Ret (fb, first, head)) ->
  run args w
  = ((if first =? head then rebase args else squash args first) ;;
     publish args fb) st1.
Proof.
  intros H. unfold run, main, integrate, bind. rewrite H.
  destruct ((if first =? head then rebase args else squash args first) st1)
    as [st2 [[]|c|e]]; reflexivity.
Qed.

(** Nothing before the push phase is a push, a checkout, a pull or a
    branch deletion. *)
Lemma integrate_quiet args w :
  forallb (fun cmd => negb (publishing cmd))
    (commands (trace (fst (integrate args (start w))))) = true.
Proof.
  apply (wp_run (integrate args) (start w) (fun st cs ps o =>
    forallb (fun cmd => negb (publishing cmd)) cs = true)).
  unfold start. cbn [trace commands prompts].
  crawl ltac:(idtac; reflexivity).
Qed.

(** Lines 80-84 when both names resolve to one commit. *)
Lemma run_on_same_ref args w st1 fb ref :
  resolve args (start w) = (st1, Ret (fb, ref, ref)) ->
  run args w
  = (log (Print guard_message) (log (Print (advice args fb)) st1), Exit 1).
Proof.
  intros H.
  assert (Hprep : prepare args (start w)
                  = (log (Print guard_message)
                       (log (Print (advice args fb)) st1), Exit 1)).
  { unfold prepare. rewrite (bind_ret _ _ _ _ _ H). cbv beta iota.
    apply bind_exit. unfold guard. fold (advice args fb).
    rewrite (bind_ret _ _ _ (log (Print (advice args fb)) st1) tt eq_refl).
    rewrite String.eqb_refl. reflexivity. }
  pose proof (integrate_after_prepare args (start w)) as Hi.
  rewrite Hprep in Hi.
  pose proof (run_after_integrate args w) as Hr. now rewrite Hi in Hr.
Qed.

(** ** The same-ref guard *)

(** C3.  When the target branch and the current branch resolve to the
    same commit, the script prints the advice to check out the feature
    branch and ends by [sys.exit(1)]; the three [rev-parse] commands are
    all it has run, so no fetch and no push. *)
Theorem same_ref_guard args w st1 fb ref :
  resolve args (start w) = (st1, Ret (fb, ref, ref)) ->
  snd (run args w) = Exit 1
  /\ exit_code (snd (run args w)) = 1%Z
  /\ trace (fst (run args w))
     = (trace st1 ++ [Print (advice args fb); Print guard_message])%list
  /\ commands (trace (fst (run args w))) = resolve_commands args fb
  /\ Forall (fun cmd => subcommand cmd <> "fetch" /\ subcommand cmd <> "push")
       (commands (trace (fst (run args w)))).
Proof.
  intros H.
  destruct (resolve_ret _ _ _ _ _ _ H) as (_ & _ & _ & Hcs & _).
  rewrite (run_on_same_ref _ _ _ _ _ H). cbn [fst snd exit_code].
  assert (Hcmds : commands (trace (log (Print guard_message)
                                     (log (Print (advice args fb)) st1)))
                  = resolve_commands args fb).
  { unfold log. cbn [trace]. rewrite !commands_app, Hcs. cbn [commands].
    now rewrite !app_nil_r. }
  repeat split.
  - unfold log. cbn [trace]. now rewrite <- app_assoc.
  - exact Hcmds.
  - rewrite Hcmds. unfold resolve_commands, subcommand.
    repeat constructor; cbn [nth]; discriminate.
Qed.

Lemma same_ref_guard_witness :
  snd (run interactive (world_of on_target [])) = Exit 1
  /\ commands (trace (fst (run interactive (world_of on_target []))))
     = resolve_commands interactive "master".
Proof.
  assert (E : snd (resolve interactive (start (world_of on_target [])))
              = Ret ("master", "1111111", "1111111"))
    by (vm_compute; reflexivity).
  destruct (same_ref_guard interactive (world_of on_target []) _
              "master" "1111111" (returns_pair _ _ _ E))
    as (Ho & _ & _ & Hcs & _).
  exact (conj Ho Hcs).
Defined.

(** ** The push phase *)

(** C7.  Once the script reaches the push phase, the commands it runs
    from there on are the force-push to the feature branch, the push to
    the target branch, the checkout of the target branch, the pull with
    rebase and the two deletions, in that order and up to the first one
    that fails; the force-push is always among them, and none of these
    commands was run before. *)
Theorem push_order args w st1 fb :
  integrate args (start w) = (st1, Ret fb) ->
  exists k,
    1 <= k <= 6
    /\ commands (trace (fst (run args w)))
       = (commands (trace st1) ++ firstn k (publish_commands args fb))%list
    /\ Forall (fun cmd => publishing cmd = false) (commands (trace st1))
    /\ (snd (run args w) = Ret tt -> 4 <= k).
Proof.
  intros H.
  pose proof (run_after_integrate args w) as Hr. rewrite H in Hr.
  pose proof (integrate_quiet args w) as Hq. rewrite H in Hq. cbn [fst] in Hq.
  destruct st1 as [gp inp n tr].
  destruct (publish_run args fb gp inp n tr) as (k & Hk & Hcs & _ & _ & Ho).
  exists k. rewrite Hr. cbn [trace]. repeat split; try lia; try exact Hcs.
  - apply Forall_forall. intros cmd Hin.
    rewrite forallb_forall in Hq. specialize (Hq cmd Hin).
    now apply negb_true_iff in Hq.
  - intros Hret. destruct (Ho Hret); lia.
Qed.

Lemma push_order_witness :
  exists k,
    1 <= k <= 6
    /\ commands (trace (fst (run yes_with_message (world_of two_ahead []))))
       = (commands (trace (fst (integrate yes_with_message
                                  (start (world_of two_ahead [])))))
          ++ firstn k (publish_commands yes_with_message "feature/x"))%list.
Proof.
  assert (E : snd (integrate yes_with_message (start (world_of two_ahead [])))
              = Ret "feature/x")
    by (vm_compute; reflexivity).
  destruct (push_order yes_with_message (world_of two_ahead []) _
              "feature/x" (returns_pair _ _ _ E))
    as (k & Hk & Hcs & _).
  exists k. exact (conj Hk Hcs).
Defined.

(** ** One commit ahead *)

(** C2.  When the first commit of the branch is HEAD, the script rebases
    and goes on to the push phase: the rebase is the only command between
    the preparation and the pushes; no show, merge, reset or commit is
    ever run, and the only prompt that can appear is the one about
    deleting the branch, whether or not a message was given. *)
Theorem single_commit_rebases args w st1 fb head :
  prepare args (start w) = (st1, Ret (fb, head, head)) ->
  exists k,
    k <= 6
    /\ commands (trace (fst (run args w)))
       = (prepare_commands args fb
          ++ rebase_command args :: firstn k (publish_commands args fb))%list
    /\ Forall (fun cmd => squashing cmd = false)
         (commands (trace (fst (run args w))))
    /\ Forall (fun p => p = delete_prompt) (prompts (trace (fst (run args w)))).
Proof.
  intros H.
  destruct (prepare_ret _ _ _ _ _ _ H) as (_ & _ & _ & Hcs & Hps).
  rewrite (run_from_prepare _ _ _ _ _ _ H), String.eqb_refl.
  destruct st1 as [gp inp n tr]. cbn [trace] in Hcs, Hps.
  apply (wp_run (rebase args ;; publish args fb) (mkState gp inp n tr)
           (fun st cs ps o =>
              exists k,
                k <= 6
                /\ cs = (prepare_commands args fb
                         ++ rebase_command args
                            :: firstn k (publish_commands args fb))%list
                /\ Forall (fun cmd => squashing cmd = false) cs
                /\ Forall (fun p => p = delete_prompt) ps)).
  cbn [trace]. rewrite Hcs, Hps.
  unfold prepare_commands, resolve_commands. cbn [app].
  crawl ltac:(idtac; cbn [app];
    first [ exists 6; split; [lia|]; split; [reflexivity|]
          | exists 5; split; [lia|]; split; [reflexivity|]
          | exists 4; split; [lia|]; split; [reflexivity|]
          | exists 3; split; [lia|]; split; [reflexivity|]
          | exists 2; split; [lia|]; split; [reflexivity|]
          | exists 1; split; [lia|]; split; [reflexivity|]
          | exists 0; split; [lia|]; split; [reflexivity|] ];
    split; repeat constructor).
Qed.

Lemma single_commit_rebases_witness :
  exists k,
    k <= 6
    /\ commands (trace (fst (run interactive (world_of one_ahead [Some "n"]))))
       = (prepare_commands interactive "feature/x"
          ++ rebase_command interactive
             :: firstn k (publish_commands interactive "feature/x"))%list.
Proof.
  assert (E : snd (prepare interactive
                     (start (world_of one_ahead [Some "n"])))
              = Ret ("feature/x", "2222222", "2222222"))
    by (vm_compute; reflexivity).
  destruct (single_commit_rebases interactive (world_of one_ahead [Some "n"])
              _ "feature/x" "2222222" (returns_pair _ _ _ E))
    as (k & Hk & Hcs & _).
  exists k. exact (conj Hk Hcs).
Defined.

(** ** The prompts *)

Ltac decided_leaf :=
  first
  [ exfalso; congruence
  | rewrite <- ?app_assoc; cbn [app]; unfold deletion_decided; split;
    [ intros Hy;
      first
      [ exfalso; congruence
      | split; [reflexivity|];
        first [ exists 5; split; [lia|reflexivity]
              | exists 6; split; [lia|reflexivity] ] ]
    | intros answer' rest' Hn Hi;
      first
      [ exfalso; congruence
      | exfalso;
        match goal with
        | H : _ \/ _ |- _ => destruct H as [[H _]|H]; congruence
        end
      | match goal with
        | H : ?inp = Some _ :: _ |- _ =>
            rewrite H in Hi; injection Hi as <- <-
        end;
        split; [reflexivity|];
        first
        [ split;
          [ intros _;
            first [ exists 5; split; [lia|reflexivity]
                  | exists 6; split; [lia|reflexivity] ]
          | intros Hna; exfalso; apply Hna;
            apply PyFacts.affirmative_iff; assumption ]
        | split;
          [ intros Ha; apply PyFacts.affirmative_iff in Ha; congruence
          | intros _; split; reflexivity ] ] ] ] ].

Lemma publish_decides args fb gp inp n tr :
  each_from (fun i cmd => exists out, git_result (gp i cmd) = Ret out) n
    (firstn 4 (publish_commands args fb)) ->
  deletion_decided args fb inp (commands tr) (prompts tr)
    (commands (trace (fst (publish args fb (mkState gp inp n tr)))))
    (prompts (trace (fst (publish args fb (mkState gp inp n tr)))))
    (snd (publish args fb (mkState gp inp n tr))).
Proof.
  intros HS. cbn [firstn publish_commands each_from] in HS.
  destruct HS as ((o0 & H0) & (o1 & H1) & (o2 & H2) & (o3 & H3) & _).
  apply (wp_run (publish args fb) (mkState gp inp n tr) (fun st cs ps o =>
    deletion_decided args fb inp (commands tr) (prompts tr) cs ps o)).
  cbn [trace].
  generalize (commands tr) (prompts tr). intros cs0 ps0.
  crawl decided_leaf.
Qed.

(** C10.  Under [--assume-yes] a prompt answers yes without reading
    anything.  Otherwise it shows its text, reads one line, and answers
    yes exactly when that line is [y] or [Y]: [yes], the empty line and
    everything else count as no.  Both prompts of the script are asked
    this way.  The one about the message decides between the message of
    the first commit and the lines typed.  The one of the push phase
    decides the deletions: they are run only under [--assume-yes] or
    after [y] or [Y]; and when the four commands before the prompt
    succeed, they are run under [--assume-yes] and after [y] or [Y], and
    after any other answer the script runs nothing more and reaches its
    end. *)
Theorem confirm_answers prompt st :
  confirm true prompt st = (st, Ret true)
  /\ (forall answer rest,
        stdin st = Some answer :: rest ->
        confirm false prompt st
        = (mkState (git_proc st) rest (spawned st)
             (trace st ++ [Input prompt])%list,
           Ret ("y" =? Py.lower answer))
        /\ (("y" =? Py.lower answer) = true <-> answer = "y" \/ answer = "Y"))
  /\ ("y" =? Py.lower "yes") = false
  /\ ("y" =? Py.lower "") = false
  /\ (forall msg gp answer rest n tr,
        snd (ask_message false msg (mkState gp (Some answer :: rest) n tr))
        = Ret (if "y" =? Py.lower answer then msg
               else Py.join nl (entered rest)))
  /\ (forall msg gp inp n tr,
        snd (ask_message true msg (mkState gp inp n tr)) = Ret msg
        /\ stdin (fst (ask_message true msg (mkState gp inp n tr))) = inp)
  /\ (forall args fb gp inp n tr,
        published args fb inp (commands tr) (prompts tr)
          (commands (trace (fst (publish args fb (mkState gp inp n tr)))))
          (prompts (trace (fst (publish args fb (mkState gp inp n tr)))))
          (snd (publish args fb (mkState gp inp n tr))))
  /\ (forall args fb gp inp n tr,
        each_from (fun i cmd => exists out, git_result (gp i cmd) = Ret out)
          n (firstn 4 (publish_commands args fb)) ->
        deletion_decided args fb inp (commands tr) (prompts tr)
          (commands (trace (fst (publish args fb (mkState gp inp n tr)))))
          (prompts (trace (fst (publish args fb (mkState gp inp n tr)))))
          (snd (publish args fb (mkState gp inp n tr)))).
Proof.
  split; [reflexivity|].
  split; [|split; [reflexivity|split; [reflexivity|split; [|split; [|split]]]]];
    [| | |exact publish_run|exact publish_decides].
  2:{ intros msg gp answer rest n tr.
      apply (wp_run (ask_message false msg)
               (mkState gp (Some answer :: rest) n tr)
               (fun st cs ps o =>
                  o = Ret (if "y" =? Py.lower answer then msg
                           else Py.join nl (entered rest)))).
      crawl ltac:(idtac;
        match goal with
        | H : false = true |- _ => discriminate H
        | H : _ \/ _ |- _ => destruct H as [[H _]|H]; discriminate H
        | H : Some _ :: _ = Some _ :: _, E : (_ =? _) = _ |- _ =>
            injection H as -> ->; rewrite E; reflexivity
        end). }
  2:{ intros msg gp inp n tr.
      apply (wp_run (ask_message true msg) (mkState gp inp n tr)
               (fun st cs ps o => o = Ret msg /\ stdin st = inp)).
      crawl ltac:(idtac;
        match goal with
        | H : true = false |- _ => discriminate H
        | |- _ => split; reflexivity
        end). }
  intros answer rest Hin. split; [|apply PyFacts.affirmative_iff].
  unfold confirm, bind, input. rewrite Hin. reflexivity.
Qed.

Lemma confirm_answers_witness :
  confirm false delete_prompt (mkState (scripted []) [Some "Y"] 0 [])
  = (mkState (scripted []) [] 0 [Input delete_prompt], Ret true)
  /\ confirm false reuse_prompt (mkState (scripted []) [Some "yes"] 0 [])
     = (mkState (scripted []) [] 0 [Input reuse_prompt], Ret false)
  /\ (exists k,
        5 <= k <= 6
        /\ commands (trace (fst (publish interactive "feature/x"
                                   (mkState (scripted []) [Some "Y"] 0 []))))
           = ([] ++ firstn k (publish_commands interactive "feature/x"))%list)
  /\ commands (trace (fst (publish interactive "feature/x"
                             (mkState (scripted []) [Some "yes"] 0 []))))
     = ([] ++ firstn 4 (publish_commands interactive "feature/x"))%list.
Proof.
  split; [|split; [|split]].
  - exact (proj1 (proj1 (proj2 (confirm_answers delete_prompt
             (mkState (scripted []) [Some "Y"] 0 []))) "Y" [] eq_refl)).
  - exact (proj1 (proj1 (proj2 (confirm_answers reuse_prompt
             (mkState (scripted []) [Some "yes"] 0 []))) "yes" [] eq_refl)).
  - destruct (confirm_answers delete_prompt
                (mkState (scripted []) [Some "Y"] 0 []))
      as (_ & _ & _ & _ & _ & _ & _ & Hd).
    destruct (Hd interactive "feature/x" (scripted []) [Some "Y"] 0 [])
      as [_ Ha].
    { cbn [firstn publish_commands each_from].
      repeat (split; [eexists; reflexivity|]). exact I. }
    destruct (Ha "Y" [] eq_refl eq_refl) as (_ & Hy & _).
    exact (Hy (or_intror eq_refl)).
  - destruct (confirm_answers delete_prompt
                (mkState (scripted []) [Some "yes"] 0 []))
      as (_ & _ & _ & _ & _ & _ & _ & Hd).
    destruct (Hd interactive "feature/x" (scripted []) [Some "yes"] 0 [])
      as [_ Ha].
    { cbn [firstn publish_commands each_from].
      repeat (split; [eexists; reflexivity|]). exact I. }
    destruct (Ha "yes" [] eq_refl eq_refl) as (_ & _ & Hn).
    apply Hn. intros [Hy|Hy]; discriminate Hy.
Defined.

(** ** The message of the squashed commit *)

Ltac squash_leaf :=
  cbn [app];
  split;
  [ intros cmd Hn; cbn [nth_error] in Hn;
    first
    [ discriminate Hn
    | injection Hn as <-; eexists; split; [reflexivity|];
      unfold message_chosen, msg_of_first_commit, show_command;
      match goal with
      | H : git_result (processes _ 6 _) = Ret _ |- _ =>
          apply git_result_ret in H; destruct H as (_ & _ & ->)
      end;
      split; [|split];
      [ intros supplied Hm Hs;
        first
        [ congruence
        | match goal with
          | Hf : Py.falsy ?s = true |- _ => destruct s; [|discriminate Hf]
          end; congruence ]
      | intros Hnm Hy;
        first
        [ reflexivity
        | congruence
        | match goal with
          | E : message _ = Some _ |- _ =>
              rewrite E in Hnm; cbn [not_message] in Hnm; congruence
          end ]
      | intros Hnm Hy;
        first
        [ congruence
        | match goal with
          | E : message _ = Some _ |- _ =>
              rewrite E in Hnm; cbn [not_message] in Hnm; congruence
          end
        | match goal with
          | Hin : typed _ = Some ?line :: ?rest |- _ =>
              exists line, rest; split; [exact Hin|]
          end;
          first
          [ split;
            [ intros _; reflexivity
            | intros Hna; exfalso; apply Hna;
              apply PyFacts.affirmative_iff; assumption ]
          | split;
            [ intros Ha; apply PyFacts.affirmative_iff in Ha; congruence
            | intros _; reflexivity ] ] ] ] ]
  | split;
    [ cbn [each_from]; repeat split; intros Hsub;
      first [ reflexivity
            | unfold subcommand in Hsub; cbn [nth] in Hsub;
              discriminate Hsub ]
    | intros Ho; first [discriminate Ho | cbn [length]; lia] ] ].

(** C1, as the code has it.  On a branch whose first commit is not HEAD,
    the only [commit] command of a run is its tenth command, and a run
    that reaches its end has issued it.  Its message is the value of
    [--message] when that value is not the empty string.  Without such a
    value it is, under [--assume-yes] or when the answer to the prompt is
    [y] or [Y], what the script holds for the message of the first
    commit: the lines the [show] command wrote, each without its trailing
    white space, joined by newlines; after any other answer it is the
    lines typed up to the end of input, joined by newlines. *)
Theorem squash_commit_message args w st1 fb first head :
  prepare args (start w) = (st1, Ret (fb, first, head)) ->
  first <> head ->
  (forall cmd,
     nth_error (commands (trace (fst (run args w)))) 9 = Some cmd ->
     exists m,
       cmd = commit_command m
       /\ message_chosen args (typed w) (msg_of_first_commit w first) m)
  /\ (forall n cmd,
        nth_error (commands (trace (fst (run args w)))) n = Some cmd ->
        subcommand cmd = "commit" -> n = 9)
  /\ (snd (run args w) = Ret tt ->
      9 < length (commands (trace (fst (run args w)))))
  /\ msg_of_first_commit w first
     = Py.join nl
         (map Py.rstrip
            (Py.readlines (stdout (processes w 6 (show_command first))))).
Proof.
  intros H Hne. apply String.eqb_neq in Hne.
  destruct (prepare_ret _ _ _ _ _ _ H) as (Hgp & Hin & Hn & Hcs & Hps).
  rewrite (run_from_prepare _ _ _ _ _ _ H), Hne.
  destruct st1 as [gp inp n tr].
  cbn [git_proc stdin spawned trace] in Hgp, Hin, Hn, Hcs, Hps.
  subst gp inp n.
  assert (W : wp (squash args first ;; publish args fb)
                (mkState (processes w) (typed w) 6 tr)
                (prepare_commands args fb) []
                (fun st cs ps o =>
                   (forall cmd,
                      nth_error cs 9 = Some cmd ->
                      exists m,
                        cmd = commit_command m
                        /\ message_chosen args (typed w)
                             (msg_of_first_commit w first) m)
                   /\ each_from
                        (fun n cmd => subcommand cmd = "commit" -> n = 9) 0 cs
                   /\ (o = Ret tt -> 9 < length cs))).
  { unfold prepare_commands, resolve_commands. cbn [app].
    crawl squash_leaf. }
  specialize (W Hcs Hps).
  cbv beta in W. destruct W as (W1 & W2 & W3).
  split; [exact W1|]. split; [exact (each_nth _ _ W2)|].
  split; [exact W3|reflexivity].
Qed.

Lemma squash_commit_message_witness :
  exists m,
    nth_error (commands (trace (fst (run interactive
                 (world_of two_ahead
                    [Some "no"; Some "Add x and y"; Some ""; Some "Squashed.";
                     None; Some "n"])))))
      9 = Some (commit_command m)
    /\ m = Py.join nl ["Add x and y"; ""; "Squashed."].
Proof.
  assert (E : snd (prepare interactive
                     (start (world_of two_ahead
                        [Some "no"; Some "Add x and y"; Some "";
                         Some "Squashed."; None; Some "n"])))
              = Ret ("feature/x", "2222222", "3333333"))
    by (vm_compute; reflexivity).
  destruct (squash_commit_message interactive
              (world_of two_ahead
                 [Some "no"; Some "Add x and y"; Some ""; Some "Squashed.";
                  None; Some "n"])
              _ "feature/x" "2222222" "3333333" (returns_pair _ _ _ E))
    as (Hm & _ & _); [discriminate|].
  destruct (Hm (commit_command (Py.join nl ["Add x and y"; ""; "Squashed."])))
    as (m & Hcmd & _ & _ & Hask); [vm_compute; reflexivity|].
  destruct (Hask eq_refl eq_refl) as (answer & rest & Htyped & _ & Hno).
  cbn [typed world_of] in Htyped. injection Htyped as <- <-.
  assert (Hmsg : m = Py.join nl ["Add x and y"; ""; "Squashed."]).
  { apply Hno. intros [Hy|Hy]; discriminate Hy. }
  exists m. split; [|exact Hmsg]. rewrite Hmsg. vm_compute; reflexivity.
Defined.

(** C1, as stated, fails for an empty [--message]: the value is given,
    yet line 112 takes it for none, and under [--assume-yes] the commit
    gets the message of the first commit; and that message is not the
    original one to the byte, the white space that ends its last line is
    gone. *)
Lemma squash_with_empty_message :
  parse_args ["-y"; "-m"; ""] = Some (Parsed yes_with_empty_message)
  /\ message yes_with_empty_message = Some ""
  /\ nth_error (commands (trace (fst (run yes_with_empty_message
                                        (world_of two_ahead [])))))
       9 = Some (commit_command (Py.join nl ["Add x"; ""; "First draft."]))
  /\ snd (run yes_with_empty_message (world_of two_ahead [])) = Ret tt
  /\ stdout (processes (world_of two_ahead []) 6 (show_command "2222222"))
     = Py.join nl ["Add x"; ""; "First draft.  "; ""].
Proof. repeat split; vm_compute; reflexivity. Qed.

(** ** Exit statuses *)













(** * More of the script *)

(** ** The runner's output *)

Lemma shown_clean lines :
  clean lines = true -> shown lines = map echo (captured lines).
Proof.
  induction lines as [|l r IH]; simpl; [reflexivity|].
  destruct (decodable l); [|discriminate].
  intros H. now rewrite (IH H).
Qed.

(** When [git] returns it has printed an empty line, the command line
    joined by single spaces, an empty line, every line it returns with
    [git> ] before it and in the same order, and an empty line; it has
    started one process and has read nothing from standard input. *)
Theorem git_echo arguments st st' out :
  git arguments st = (st', Ret out) ->
  trace st'
  = (trace st
     ++ [Print ""; Print (Py.join " " ("git" :: arguments));
         Popen ("git" :: arguments); Print ""]
     ++ map echo out ++ [Print ""])%list
  /\ spawned st' = S (spawned st)
  /\ stdin st' = stdin st
  /\ git_proc st' = git_proc st.
Proof.
  intros H. rewrite git_eq in H. injection H as Hst Hres.
  apply git_result_ret in Hres. destruct Hres as (Hclean & Hrc & ->).
  subst st'. unfold after_git. cbn [trace spawned stdin git_proc].
  repeat split.
  Transparent git_events. unfold git_events. Opaque git_events.
  rewrite Hclean, Hrc, (shown_clean _ Hclean). reflexivity.
Qed.

Lemma git_echo_witness :
  trace (after_git (mkState (scripted two_ahead) [] 6 [])
           (show_command "2222222"))
  = [Print ""; Print "git show --no-patch --format=%B 2222222";
     Popen (show_command "2222222"); Print "";
     Print "git> Add x"; Print "git> "; Print "git> First draft.";
     Print ""].
Proof.
  assert (E : git ["show"; "--no-patch"; "--format=%B"; "2222222"]
                  (mkState (scripted two_ahead) [] 6 [])
              = (after_git (mkState (scripted two_ahead) [] 6 [])
                   (show_command "2222222"),
                 Ret ["Add x"; ""; "First draft."])).
  { rewrite git_eq. reflexivity. }
  exact (proj1 (git_echo _ _ _ _ E)).
Defined.

(** ** The message typed in *)

Lemma entered_typed lines : forall rest,
  entered (map Some lines ++ None :: rest) = lines
  /\ after_eof (map Some lines ++ None :: rest) = rest.
Proof.
  induction lines as [|l ls IH]; intros rest; simpl; [auto|].
  destruct (IH rest) as [-> ->]. auto.
Qed.

Lemma entered_all lines :
  entered (map Some lines) = lines /\ after_eof (map Some lines) = [].
Proof.
  induction lines as [|l ls IH]; simpl; [auto|].
  destruct IH as [-> ->]. auto.
Qed.

(** The loop of lines 125-131 always ends and never fails.  It returns
    the lines typed before the first end of input, in order; it takes
    that end of input and leaves what follows it unread; it has prompted,
    with the empty prompt, once per line and once more.  When standard
    input just ends, it returns all the lines and leaves nothing. *)
Theorem read_contents_until_eof lines gp n tr :
  (forall rest,
     read_contents (mkState gp (map Some lines ++ None :: rest) n tr)
     = (mkState gp rest n
          (tr ++ repeat (Input "") (S (length lines)))%list,
        Ret lines))
  /\ read_contents (mkState gp (map Some lines) n tr)
     = (mkState gp [] n (tr ++ repeat (Input "") (S (length lines)))%list,
        Ret lines).
Proof.
  split; [intros rest|]; rewrite read_contents_run;
    cbn [git_proc stdin spawned trace].
  - now destruct (entered_typed lines rest) as [-> ->].
  - now destruct (entered_all lines) as [-> ->].
Qed.

(** ** The order of the commands *)

(** Every run starts at least one command, and the git subcommands it
    runs, in order, are the first so many of the thirteen of the rebase
    path or of the sixteen of the squash path: the script never runs
    anything else, and nothing out of turn. *)
Theorem run_subcommand_order args w :
  1 <= length (commands (trace (fst (run args w))))
  /\ (map subcommand (commands (trace (fst (run args w))))
      = firstn (length (commands (trace (fst (run args w)))))
          rebase_subcommands
      \/ map subcommand (commands (trace (fst (run args w))))
         = firstn (length (commands (trace (fst (run args w)))))
             squash_subcommands).
Proof.
  unfold run.
  apply (wp_run (main args) (start w) (fun st cs ps o =>
    1 <= length cs
    /\ (map subcommand cs = firstn (length cs) rebase_subcommands
        \/ map subcommand cs = firstn (length cs) squash_subcommands))).
  unfold start. cbn [trace commands prompts].
  crawl ltac:(idtac; cbn [app length]; split;
              [lia | first [left; reflexivity | right; reflexivity]]).
Qed.

(** ** What is read from standard input *)

(** Under [--assume-yes] a run reads nothing: no prompt is shown and
    standard input is left as it was. *)
Theorem assume_yes_reads_nothing args w :
  assume_yes args = true ->
  prompts (trace (fst (run args w))) = []
  /\ stdin (fst (run args w)) = typed w.
Proof.
  intros Hy. unfold run.
  apply (wp_run (main args) (start w) (fun st cs ps o =>
    ps = [] /\ stdin st = typed w)).
  unfold start. cbn [trace commands prompts].
  crawl ltac:(idtac; first [split; reflexivity | congruence]).
Qed.

Lemma assume_yes_reads_nothing_witness :
  prompts (trace (fst (run yes_with_empty_message
                         (world_of two_ahead [Some "n"])))) = []
  /\ stdin (fst (run yes_with_empty_message (world_of two_ahead [Some "n"])))
     = [Some "n"].
Proof.
  exact (assume_yes_reads_nothing yes_with_empty_message
           (world_of two_ahead [Some "n"]) eq_refl).
Defined.

(** With a [--message] that is not empty, the script asks nothing about
    the message: the only prompt a run can show is the one about deleting
    the branch, and it shows it at most once. *)
Theorem message_given_asks_once args w m :
  message args = Some m -> m <> "" ->
  prompts (trace (fst (run args w))) = []
  \/ prompts (trace (fst (run args w))) = [delete_prompt].
Proof.
  intros Hm Hne. unfold run.
  apply (wp_run (main args) (start w) (fun st cs ps o =>
    ps = [] \/ ps = [delete_prompt])).
  unfold start. cbn [trace commands prompts].
  crawl ltac:(idtac;
    first
    [ left; reflexivity
    | right; reflexivity
    | congruence
    | exfalso;
      match goal with
      | E : message args = Some ?s, F : Py.falsy ?s = true |- _ =>
          destruct s; [congruence | discriminate F]
      end ]).
Qed.

Lemma message_given_asks_once_witness :
  prompts (trace (fst (run (mkArgs "master" "origin" (Some "Add x") false)
                         (world_of two_ahead [Some "n"])))) = []
  \/ prompts (trace (fst (run (mkArgs "master" "origin" (Some "Add x") false)
                            (world_of two_ahead [Some "n"]))))
     = [delete_prompt].
Proof.
  apply (message_given_asks_once
           (mkArgs "master" "origin" (Some "Add x") false)
           (world_of two_ahead [Some "n"]) "Add x" eq_refl).
  discriminate.
Defined.

(** A run ends in an uncaught [EOFError] only at one of the two yes/no
    prompts, asked because [--assume-yes] was not given: the prompt is the
    last thing the run has shown.  (End of input while the message is
    typed is caught and ends the message.) *)
Theorem eof_at_prompt args w :
  snd (run args w) = Raise EOFError ->
  assume_yes args = false
  /\ exists before prompt,
       trace (fst (run args w)) = (before ++ [Input prompt])%list
       /\ (prompt = reuse_prompt \/ prompt = delete_prompt).
Proof.
  unfold run.
  apply (wp_run (main args) (start w) (fun st cs ps o =>
    o = Raise EOFError ->
    assume_yes args = false
    /\ exists before prompt,
         trace st = (before ++ [Input prompt])%list
         /\ (prompt = reuse_prompt \/ prompt = delete_prompt))).
  unfold start. cbn [trace commands prompts].
  crawl ltac:(idtac; intros Ho;
    first
    [ discriminate Ho
    | split; [assumption|]; cbn [trace]; do 2 eexists;
      split; [reflexivity|];
      first [left; reflexivity | right; reflexivity] ]).
Qed.

Lemma eof_at_prompt_witness :
  exists before prompt,
    trace (fst (run interactive (world_of two_ahead [])))
    = (before ++ [Input prompt])%list
    /\ (prompt = reuse_prompt \/ prompt = delete_prompt).
Proof.
  exact (proj2 (eof_at_prompt interactive (world_of two_ahead [])
                  ltac:(vm_compute; reflexivity))).
Defined.

(** ** What the preparation hands on *)

Lemma find_holds {X} (f : X -> bool) xs x : find f xs = Some x -> f x = true.
Proof. intros H. now destruct (find_some _ _ H). Qed.

(** When the script reaches line 100, the name of the feature branch is
    the first line the first [rev-parse] wrote; the target branch and the
    feature branch resolved to different commits; the fetch exited with
    0; the first commit of the branch is the first line of the revision
    list that starts with [<], without that mark; and the commit of HEAD
    is the first line the last [rev-parse] wrote. *)
Theorem prepare_results args w st1 fb first head :
  prepare args (start w) = (st1, Ret (fb, first, head)) ->
  (exists rest,
     git_result (processes w 0
                   ["git"; "rev-parse"; "--abbrev-ref"; "--verify"; "HEAD"])
     = Ret (fb :: rest))
  /\ (exists target_ref feature_ref rest1 rest2,
        git_result (processes w 1 ["git"; "rev-parse"; target_branch args])
        = Ret (target_ref :: rest1)
        /\ git_result (processes w 2 ["git"; "rev-parse"; fb])
           = Ret (feature_ref :: rest2)
        /\ target_ref <> feature_ref)
  /\ returncode (processes w 3 ["git"; "fetch"; remote args]) = 0%Z
  /\ (exists commits,
        git_result (processes w 4
                      ["git"; "rev-list"; "--left-right"; "--reverse";
                       "HEAD..." ++ target_branch_remote args])
        = Ret commits
        /\ find (Py.startswith "<") commits = Some (String "<" first))
  /\ (exists rest,
        git_result (processes w 5 ["git"; "rev-parse"; "HEAD"])
        = Ret (head :: rest)).
Proof.
  intros H.
  pose proof (wp_run (prepare args) (start w) (fun st cs ps o =>
    forall fb first head, o = Ret (fb, first, head) ->
    (exists rest,
       git_result (processes w 0
                     ["git"; "rev-parse"; "--abbrev-ref"; "--verify"; "HEAD"])
       = Ret (fb :: rest))
    /\ (exists target_ref feature_ref rest1 rest2,
          git_result (processes w 1 ["git"; "rev-parse"; target_branch args])
          = Ret (target_ref :: rest1)
          /\ git_result (processes w 2 ["git"; "rev-parse"; fb])
             = Ret (feature_ref :: rest2)
          /\ target_ref <> feature_ref)
    /\ returncode (processes w 3 ["git"; "fetch"; remote args]) = 0%Z
    /\ (exists commits,
          git_result (processes w 4
                        ["git"; "rev-list"; "--left-right"; "--reverse";
                         "HEAD..." ++ target_branch_remote args])
          = Ret commits
          /\ find (Py.startswith "<") commits = Some (String "<" first))
    /\ (exists rest,
          git_result (processes w 5 ["git"; "rev-parse"; "HEAD"])
          = Ret (head :: rest)))) as W.
  rewrite H in W. cbn [fst snd] in W.
  refine (W _ fb first head eq_refl). clear.
  unfold start. cbn [trace commands prompts].
  crawl ltac:(idtac; intros ? ? ? Ho;
    first
    [ discriminate Ho
    | injection Ho as <- <- <-; subst;
      split; [eexists; eassumption|];
      split; [do 4 eexists; split; [eassumption|]; split; [eassumption|];
              now apply String.eqb_neq|];
      split; [match goal with
              | Hf : git_result (processes _ 3 _) = Ret _ |- _ =>
                  exact (proj1 (proj2 (git_result_ret _ _ Hf)))
              end|];
      split; [|eexists; eassumption];
      eexists; split; [eassumption|];
      match goal with
      | Hf : find _ _ = Some ?c |- _ =>
          rewrite Hf; f_equal;
          exact (startswith_marker _ (find_holds _ _ _ Hf))
      end ]).
Qed.

Lemma prepare_results_witness :
  exists commits,
    git_result (processes (world_of two_ahead []) 4
                  ["git"; "rev-list"; "--left-right"; "--reverse";
                   "HEAD..." ++ target_branch_remote interactive])
    = Ret commits
    /\ find (Py.startswith "<") commits = Some "<2222222".
Proof.
  assert (E : snd (prepare interactive (start (world_of two_ahead [])))
              = Ret ("feature/x", "2222222", "3333333"))
    by (vm_compute; reflexivity).
  exact (proj1 (proj2 (proj2 (proj2
           (prepare_results interactive (world_of two_ahead []) _
              "feature/x" "2222222" "3333333" (returns_pair _ _ _ E)))))).
Defined.

(** ** The squash path, command by command *)

(** On a branch whose first commit is not HEAD, the commands after the
    preparation are [show], [merge], [reset --soft], [commit] and the
    commands of the push phase, with the arguments of the text, in that
    order and up to the first that fails or the prompt that fails; the
    [show] is always among them, and a run that reaches its end has run
    all of them but, unless deleting was confirmed, the two deletions. *)
Theorem squash_sequence args w st1 fb first head :
  prepare args (start w) = (st1, Ret (fb, first, head)) ->
  first <> head ->
  exists m j,
    1 <= j <= 10
    /\ commands (trace (fst (run args w)))
       = (prepare_commands args fb
          ++ firstn j (squash_commands args first m
                       ++ publish_commands args fb))%list
    /\ (snd (run args w) = Ret tt -> j = 8 \/ j = 10).
Proof.
  intros H Hne. apply String.eqb_neq in Hne.
  destruct (prepare_ret _ _ _ _ _ _ H) as (_ & _ & _ & Hcs & Hps).
  rewrite (run_from_prepare _ _ _ _ _ _ H), Hne.
  destruct st1 as [gp inp n tr]. cbn [trace] in Hcs, Hps.
  assert (W : wp (squash args first ;; publish args fb)
                (mkState gp inp n tr) (prepare_commands args fb) []
                (fun st cs ps o =>
                   exists m j,
                     1 <= j <= 10
                     /\ cs = (prepare_commands args fb
                              ++ firstn j (squash_commands args first m
                                           ++ publish_commands args fb))%list
                     /\ (o = Ret tt -> j = 8 \/ j = 10))).
  { unfold prepare_commands, resolve_commands. cbn [app].
    crawl ltac:(idtac; cbn [app];
      first
      [ eexists; exists 10; split; [lia|]; split; [reflexivity|]
      | eexists; exists 9; split; [lia|]; split; [reflexivity|]
      | eexists; exists 8; split; [lia|]; split; [reflexivity|]
      | eexists; exists 7; split; [lia|]; split; [reflexivity|]
      | eexists; exists 6; split; [lia|]; split; [reflexivity|]
      | eexists; exists 5; split; [lia|]; split; [reflexivity|]
      | eexists; exists 4; split; [lia|]; split; [reflexivity|]
      | exists "", 3; split; [lia|]; split; [reflexivity|]
      | exists "", 2; split; [lia|]; split; [reflexivity|]
      | exists "", 1; split; [lia|]; split; [reflexivity|] ];
      intros Ho;
      first [discriminate Ho | left; reflexivity | right; reflexivity]). }
  exact (W Hcs Hps).
Qed.

Lemma squash_sequence_witness :
  exists m j,
    1 <= j <= 10
    /\ commands (trace (fst (run yes_with_message (world_of two_ahead []))))
       = (prepare_commands yes_with_message "feature/x"
          ++ firstn j (squash_commands yes_with_message "2222222" m
                       ++ publish_commands yes_with_message "feature/x"))%list
    /\ (snd (run yes_with_message (world_of two_ahead [])) = Ret tt ->
        j = 8 \/ j = 10).
Proof.
  assert (E : snd (prepare yes_with_message (start (world_of two_ahead [])))
              = Ret ("feature/x", "2222222", "3333333"))
    by (vm_compute; reflexivity).
  apply (squash_sequence yes_with_message (world_of two_ahead []) _
           "feature/x" "2222222" "3333333" (returns_pair _ _ _ E)).
  discriminate.
Defined.

(** ** The last words of a run *)

Lemma git_events_exit cmdline p c :
  git_result p = Exit c ->
  returncode p <> 0%Z
  /\ exists before,
       git_events cmdline p
       = (before ++ [Print (diagnostic (returncode p))])%list.
Proof.
  intros H. apply git_result_exit in H. destruct H as (Hclean & Hrc & _).
  split; [exact Hrc|].
  Transparent git_events. unfold git_events. Opaque git_events.
  rewrite Hclean. apply Z.eqb_neq in Hrc. rewrite Hrc.
  exists ([Print ""; Print (Py.join " " cmdline); Popen cmdline; Print ""]
          ++ shown (Py.readlines (stdout p)) ++ [Print ""; Print ""])%list.
  rewrite <- !app_assoc. reflexivity.
Qed.

(** A run that reaches its end has printed [Good bye.] last.  A run the
    script ends by [sys.exit] ends with status 1, and the last thing it
    has printed is either the advice of the same-ref guard or the
    diagnostic of a command that exited with another code than 0. *)
Theorem run_last_words args w :
  (snd (run args w) = Ret tt ->
   exists before,
     trace (fst (run args w)) = (before ++ [Print "Good bye."])%list)
  /\ (forall c,
        snd (run args w) = Exit c ->
        c = 1%Z
        /\ exists before text,
             trace (fst (run args w)) = (before ++ [Print text])%list
             /\ (text = guard_message
                 \/ exists code, code <> 0%Z /\ text = diagnostic code)).
Proof.
  unfold run.
  apply (wp_run (main args) (start w) (fun st cs ps o =>
    (o = Ret tt ->
     exists before, trace st = (before ++ [Print "Good bye."])%list)
    /\ (forall c,
          o = Exit c ->
          c = 1%Z
          /\ exists before text,
               trace st = (before ++ [Print text])%list
               /\ (text = guard_message
                   \/ exists code, code <> 0%Z /\ text = diagnostic code)))).
  unfold start. cbn [trace commands prompts].
  crawl ltac:(idtac; cbn [trace]; split;
    [ intros Ho; first [discriminate Ho | eexists; reflexivity]
    | intros c Ho;
      first
      [ discriminate Ho
      | injection Ho as <-; split; [reflexivity|];
        first
        [ do 2 eexists; split; [reflexivity|]; left; reflexivity
        | match goal with
          | Hg : git_result ?p = Exit 1
            |- exists before text,
                 (?tr ++ git_events ?cmd ?p)%list = _ /\ _ =>
              destruct (git_events_exit cmd p 1%Z Hg) as (Hrc & ev & ->);
              exists (tr ++ ev)%list, (diagnostic (returncode p));
              split; [now rewrite app_assoc|];
              right; exists (returncode p); split; [exact Hrc|reflexivity]
          end ] ] ]).
Qed.

(** ** The guard, the other way *)

Lemma run_from_resolve args w st1 fb target_ref feature_ref :
  resolve args (start w) = (st1, Ret (fb, target_ref, feature_ref)) ->
  run args w = after_resolve args fb target_ref feature_ref st1.
Proof.
  intros H. unfold run, main, integrate, prepare, after_resolve, bind.
  rewrite H.
  destruct (guard args fb target_ref feature_ref st1) as [st2 [[]|c|e]];
    [|reflexivity|reflexivity].
  destruct (divergence args st2) as [st3 [[first head]|c|e]];
    [|reflexivity|reflexivity].
  unfold ret. cbv beta iota.
  destruct ((if first =? head then rebase args else squash args first) st3)
    as [st4 [[]|c|e]]; reflexivity.
Qed.

(** Once the three names are resolved, the script goes on to fetch from
    the remote, as its fourth command, exactly when the target branch
    and the current branch resolved to different commits. *)
Theorem fetch_iff_refs_differ args w st1 fb target_ref feature_ref :
  resolve args (start w) = (st1, Ret (fb, target_ref, feature_ref)) ->
  target_ref <> feature_ref
  <-> nth_error (commands (trace (fst (run args w)))) 3
      = Some ["git"; "fetch"; remote args].
Proof.
  intros H. split.
  - intros Hne. apply String.eqb_neq in Hne.
    destruct (resolve_ret _ _ _ _ _ _ H) as (_ & _ & _ & Hcs & Hps).
    rewrite (run_from_resolve _ _ _ _ _ _ H).
    destruct st1 as [gp inp n tr]. cbn [trace] in Hcs, Hps.
    assert (W : wp (after_resolve args fb target_ref feature_ref)
                  (mkState gp inp n tr) (resolve_commands args fb) []
                  (fun st cs ps o =>
                     nth_error cs 3 = Some ["git"; "fetch"; remote args])).
    { unfold resolve_commands.
      crawl ltac:(idtac; first [reflexivity | congruence]). }
    exact (W Hcs Hps).
  - intros Hn Heq. subst feature_ref.
    destruct (resolve_ret _ _ _ _ _ _ H) as (_ & _ & _ & Hcs & _).
    rewrite (run_on_same_ref _ _ _ _ _ H) in Hn.
    unfold log in Hn. cbn [fst trace] in Hn.
    rewrite !commands_app, Hcs in Hn. discriminate Hn.
Qed.

Lemma fetch_iff_refs_differ_witness :
  nth_error (commands (trace (fst (run interactive
                                     (world_of fetch_fails [])))))
    3 = Some ["git"; "fetch"; "origin"].
Proof.
  assert (E : snd (resolve interactive (start (world_of fetch_fails [])))
              = Ret ("feature/x", "1111111", "2222222"))
    by (vm_compute; reflexivity).
  apply (proj1 (fetch_iff_refs_differ interactive (world_of fetch_fails [])
                  _ "feature/x" "1111111" "2222222" (returns_pair _ _ _ E))).
  discriminate.
Defined.

(** ** Output in ASCII *)

Lemma all_ascii_valid s : all_ascii s = true -> Py.utf8_valid s = true.
Proof.
  induction s as [|c r IH]; simpl; [reflexivity|].
  intros H. apply andb_true_iff in H. destruct H as [Hc Hr].
  rewrite Hc. now apply IH.
Qed.

Lemma rstrip_ascii s : all_ascii s = true -> all_ascii (Py.rstrip s) = true.
Proof.
  induction s as [|c r IH]; simpl; [reflexivity|].
  intros H. apply andb_true_iff in H. destruct H as [Hc Hr].
  destruct (Py.is_space c && Py.falsy (Py.rstrip r)); [reflexivity|].
  simpl. now rewrite Hc, IH.
Qed.

Lemma readline_ascii s :
  all_ascii s = true ->
  all_ascii (fst (Py.readline s)) = true
  /\ all_ascii (snd (Py.readline s)) = true.
Proof.
  induction s as [|c r IH]; simpl; [auto|].
  intros H. apply andb_true_iff in H. destruct H as [Hc Hr].
  destruct (Ascii.eqb c Py.newline).
  - simpl. now rewrite Hc.
  - destruct (Py.readline r) as [l r'] eqn:E. simpl in *.
    destruct (IH Hr) as [Hl Hr']. now rewrite Hc, Hl.
Qed.

Lemma readlines_fuel_ascii fuel : forall s,
  all_ascii s = true -> clean (Py.readlines_fuel fuel s) = true.
Proof.
  induction fuel as [|fuel IH]; intros s H; simpl; [reflexivity|].
  destruct (readline_ascii s H) as [Hl Hr].
  destruct (Py.readline s) as [l r]. simpl in Hl, Hr.
  destruct (Py.falsy l); [reflexivity|]. simpl.
  unfold decodable. rewrite (all_ascii_valid _ (rstrip_ascii _ Hl)).
  now apply IH.
Qed.

(** On a command that writes nothing but ASCII, [git] never fails in the
    decoder: it returns the lines when the command exits with 0, and
    ends the run by [sys.exit(1)] otherwise. *)
Theorem git_on_ascii_output arguments st :
  let p := git_proc st (spawned st) ("git" :: arguments) in
  all_ascii (stdout p) = true ->
  snd (git arguments st)
  = if (returncode p =? 0)%Z then Ret (output_lines p) else Exit 1.
Proof.
  intros p H. rewrite git_eq. cbn [snd].
  change (spawn_next st ("git" :: arguments)) with p.
  unfold git_result, Py.readlines.
  now rewrite (readlines_fuel_ascii _ _ H).
Qed.

Lemma git_on_ascii_output_witness :
  snd (git ["fetch"; "origin"] (mkState (scripted fetch_fails) [] 3 []))
  = Exit 1.
Proof.
  exact (git_on_ascii_output ["fetch"; "origin"]
           (mkState (scripted fetch_fails) [] 3 []) eq_refl).
Defined.


(** ** Where the uncaught exceptions come from *)

(** Each exception a run can end in, other than [EOFError], is raised
    right after the last command of the run and has one cause.
    [IndexError]: that command is a [rev-parse] that returned no line.
    [StopIteration]: it is the [rev-list], and no line it returned starts
    with [<].  [UnicodeDecodeError]: a line of its output, without its
    trailing white space, is not well-formed UTF-8. *)
Theorem uncaught_exception_cause args w e :
  snd (run args w) = Raise e ->
  e = EOFError
  \/ exists before cmd,
       commands (trace (fst (run args w))) = (before ++ [cmd])%list
       /\ match e with
          | IndexError =>
              subcommand cmd = "rev-parse"
              /\ git_result (processes w (length before) cmd) = Ret []
          | StopIteration =>
              subcommand cmd = "rev-list"
              /\ exists commits,
                   git_result (processes w (length before) cmd) = Ret commits
                   /\ find (Py.startswith "<") commits = None
          | UnicodeDecodeError =>
              clean (Py.readlines
                       (stdout (processes w (length before) cmd))) = false
          | EOFError => True
          end.
Proof.
  revert e. unfold run.
  apply (wp_run (main args) (start w) (fun st cs ps o =>
    forall e,
      o = Raise e ->
      e = EOFError
      \/ exists before cmd,
           cs = (before ++ [cmd])%list
           /\ match e with
              | IndexError =>
                  subcommand cmd = "rev-parse"
                  /\ git_result (processes w (length before) cmd) = Ret []
              | StopIteration =>
                  subcommand cmd = "rev-list"
                  /\ exists commits,
                       git_result (processes w (length before) cmd)
                       = Ret commits
                       /\ find (Py.startswith "<") commits = None
              | UnicodeDecodeError =>
                  clean (Py.readlines
                           (stdout (processes w (length before) cmd))) = false
              | EOFError => True
              end)).
  unfold start. cbn [trace commands prompts].
  crawl ltac:(idtac; intros e Ho;
    first
    [ discriminate Ho
    | injection Ho as <-;
      first
      [ left; reflexivity
      | right; do 2 eexists; split; [reflexivity|];
        cbn [length app];
        first
        [ split; [reflexivity|]; subst; assumption
        | split; [reflexivity|]; eexists; split; eassumption
        | match goal with
          | Hg : git_result _ = Raise UnicodeDecodeError |- _ =>
              exact (proj1 (git_result_raise _ _ Hg))
          end ] ] ]).
Qed.

Lemma uncaught_exception_cause_witness :
  exists before cmd,
    commands (trace (fst (run interactive (world_of nothing_ahead []))))
    = (before ++ [cmd])%list
    /\ subcommand cmd = "rev-list"
    /\ exists commits,
         git_result (processes (world_of nothing_ahead []) (length before) cmd)
         = Ret commits
         /\ find (Py.startswith "<") commits = None.
Proof.
  destruct (uncaught_exception_cause interactive (world_of nothing_ahead [])
              StopIteration ltac:(vm_compute; reflexivity))
    as [E|H]; [discriminate E|exact H].
Defined.
